(** * QuickLink: validation, proxy and history, verified against the code

    A shallow embedding of the QuickLink URL shortener:
    - [server/routes/api.js]: [isValidUrl], [isValidSlug], the
      [POST /shorten] and [GET /test] handlers;
    - [src/components/URLShortener.jsx]: the client-side [isValidUrl],
      the history list kept in [localStorage], and the event handlers
      of the form.

    JavaScript strings are modelled as [string], every character being a
    code unit below 256 (Latin-1 range).  Platform primitives that the
    code calls ([String.prototype.trim], [new URL], [JSON.parse], the
    regular expression of the slug) are modelled in their own modules. *)

From Stdlib Require Import String Ascii List ZArith NArith Bool Lia.
Import ListNotations.
Set Warnings "-register-all".
Open Scope string_scope.

(** ** JavaScript values and strings *)

Module Js.

Definition code (c : ascii) : N := N_of_ascii c.

Definition in_range (lo hi : N) (c : ascii) : bool :=
  ((lo <=? code c) && (code c <=? hi))%N.

(** WhiteSpace and LineTerminator code points below 256: TAB, LF, VT,
    FF, CR, SPACE and NO-BREAK SPACE. *)
Definition isWhiteSpace (c : ascii) : bool :=
  in_range 9 13 c || (code c =? 32)%N || (code c =? 160)%N.

Fixpoint trimStart (s : string) : string :=
  match s with
  | EmptyString => EmptyString
  | String c rest => if isWhiteSpace c then trimStart rest else s
  end.

Fixpoint rev (s : string) : string :=
  match s with
  | EmptyString => EmptyString
  | String c rest => rev rest ++ String c EmptyString
  end.

Definition trimEnd (s : string) : string := rev (trimStart (rev s)).

(** [String.prototype.trim] *)
Definition trim (s : string) : string := trimEnd (trimStart s).

(** [s.slice(0, n)] on arrays *)
Definition slice0 {A} (n : nat) (l : list A) : list A := firstn n l.

(** The values a JSON document or a request body field can hold,
    together with [undefined].  A number is an integer [n] or, when it
    has a fractional part, a decimal [mantissa * 10 ^ exponent] with a
    negative exponent; rounding to a double is not modelled. *)
Inductive value : Type :=
| JUndefined
| JNull
| JBool (b : bool)
| JNumber (n : Z)
| JDecimal (mantissa exponent : Z)
| JString (s : string)
| JArray (items : list value)
| JObject (fields : list (string * value)).

(** ToBoolean *)
Definition truthy (v : value) : bool :=
  match v with
  | JUndefined | JNull => false
  | JBool b => b
  | JNumber n => negb (n =? 0)%Z
  | JDecimal m _ => negb (m =? 0)%Z
  | JString s => negb (s =? "")
  | JArray _ | JObject _ => true
  end.

Fixpoint assoc (k : string) (fields : list (string * value)) : value :=
  match fields with
  | [] => JUndefined
  | (k', v) :: rest => if k' =? k then v else assoc k rest
  end.

(** [v?.k]: optional chaining on a property name, for the names that
    the handlers read (none of them is a property of a string, a number
    or an array).  An object keeps the last binding of a repeated key. *)
Definition optMember (v : value) (k : string) : value :=
  match v with
  | JObject fields => assoc k (List.rev fields)
  | _ => JUndefined
  end.

(** [v?.[0]]: optional chaining on index 0. *)
Definition optIndex0 (v : value) : value :=
  match v with
  | JArray (x :: _) => x
  | JString (String c _) => JString (String c EmptyString)
  | JObject fields => assoc "0" (List.rev fields)
  | _ => JUndefined
  end.

Definition dquote : ascii := ascii_of_N 34.

(** The text of [s] between double quotes. *)
Definition quoted (s : string) : string :=
  String dquote (s ++ String dquote EmptyString).

(** [a || b] *)
Definition or_else (a b : value) : value := if truthy a then a else b.

End Js.

(** ** The slug pattern [/^[a-zA-Z0-9_-]+$/] *)

Module SlugRegex.

Inductive class_item : Type :=
| Range (lo hi : ascii)
| Single (c : ascii).

Definition item_matches (c : ascii) (i : class_item) : bool :=
  match i with
  | Range lo hi => Js.in_range (Js.code lo) (Js.code hi) c
  | Single d => (Js.code c =? Js.code d)%N
  end.

Definition class_matches (cls : list class_item) (c : ascii) : bool :=
  existsb (item_matches c) cls.

(** [[a-zA-Z0-9_-]] *)
Definition slugClass : list class_item :=
  [Range "a" "z"; Range "A" "Z"; Range "0" "9"; Single "_"; Single "-"]%char.

Fixpoint all_in (cls : list class_item) (s : string) : bool :=
  match s with
  | EmptyString => true
  | String c rest => class_matches cls c && all_in cls rest
  end.

(** [^cls+$] without flags: the whole input, at least one character. *)
Definition test_plus (cls : list class_item) (s : string) : bool :=
  match s with
  | EmptyString => false
  | String _ _ => all_in cls s
  end.

Definition slugRegex_test : string -> bool := test_plus slugClass.

End SlugRegex.

(** [isValidSlug] of [server/routes/api.js]; [None] is an absent
    ([undefined]) argument. *)
Definition isValidSlug (slug : option string) : bool :=
  match slug with
  | None => true
  | Some s =>
      if negb (Js.truthy (Js.JString s)) then true
      else SlugRegex.slugRegex_test s
           && (3 <=? String.length s)%nat && (String.length s <=? 50)%nat
  end.

(** ** [new URL(input)]

    The model follows the states of the URL Standard's basic URL parser
    for an input without base URL: scheme start, scheme, no scheme
    (failure), special authority slashes, authority, host, port, file
    host, path-or-authority and opaque path.  Host syntax is checked by
    code point (percent-decoding, forbidden host and domain code points,
    bracket matching); the numeric well-formedness of IPv4 and IPv6
    literals and the IDNA mapping of non-ASCII domains are outside the
    model.  Path, query and fragment never make the parser fail and are
    kept as written. *)

Module URL.
Import Js.

Record t : Type := mk
  { scheme : string;
    host : option string;
    port : option N;
    tail : string }.

(** The [protocol] getter: the scheme followed by a colon. *)
Definition protocol (u : t) : string := scheme u ++ ":".

Definition isChar (d c : ascii) : bool := (code c =? code d)%N.
Definition isAlpha (c : ascii) : bool := in_range 65 90 c || in_range 97 122 c.
Definition isDigit (c : ascii) : bool := in_range 48 57 c.
Definition isAlnum (c : ascii) : bool := isAlpha c || isDigit c.
Definition isHexDigit (c : ascii) : bool :=
  isDigit c || in_range 65 70 c || in_range 97 102 c.
Definition toLower (c : ascii) : ascii :=
  if in_range 65 90 c then ascii_of_N (code c + 32) else c.
Definition isC0ControlOrSpace (c : ascii) : bool := (code c <=? 32)%N.
Definition isTabOrNewline (c : ascii) : bool :=
  (code c =? 9)%N || (code c =? 10)%N || (code c =? 13)%N.

Fixpoint dropWhile (p : ascii -> bool) (s : string) : string :=
  match s with
  | EmptyString => EmptyString
  | String c rest => if p c then dropWhile p rest else s
  end.

Fixpoint remove (p : ascii -> bool) (s : string) : string :=
  match s with
  | EmptyString => EmptyString
  | String c rest => if p c then remove p rest else String c (remove p rest)
  end.

Fixpoint any (p : ascii -> bool) (s : string) : bool :=
  match s with
  | EmptyString => false
  | String c rest => p c || any p rest
  end.

Fixpoint all (p : ascii -> bool) (s : string) : bool :=
  match s with
  | EmptyString => true
  | String c rest => p c && all p rest
  end.

(** Splits before the first character satisfying [stop]. *)
Fixpoint span (stop : ascii -> bool) (s : string) : string * string :=
  match s with
  | EmptyString => (EmptyString, EmptyString)
  | String c rest =>
      if stop c then (EmptyString, s)
      else let (a, b) := span stop rest in (String c a, b)
  end.

Fixpoint lower (s : string) : string :=
  match s with
  | EmptyString => EmptyString
  | String c rest => String (toLower c) (lower rest)
  end.

Definition snoc (s : string) (c : ascii) : string := s ++ String c EmptyString.

Definition isSpecial (sch : string) : bool :=
  existsb (String.eqb sch) ["ftp"; "file"; "http"; "https"; "ws"; "wss"].

(** Scheme state: the buffer grows while the input is alphanumeric,
    [+], [-] or [.]; a colon ends the scheme; anything else, or the end
    of the input, leads to the no-scheme state, which fails without a
    base URL. *)
Fixpoint schemeState (buffer input : string) : option (string * string) :=
  match input with
  | EmptyString => None
  | String c rest =>
      if isAlnum c || isChar "+" c || isChar "-" c || isChar "." c
      then schemeState (snoc buffer (toLower c)) rest
      else if isChar ":" c then Some (buffer, rest)
      else None
  end.

Definition schemeStartState (input : string) : option (string * string) :=
  match input with
  | String c rest =>
      if isAlpha c then schemeState (String (toLower c) EmptyString) rest
      else None
  | EmptyString => None
  end.

Definition hexVal (c : ascii) : N :=
  if isDigit c then code c - 48
  else if in_range 65 70 c then code c - 55
  else code c - 87.

Fixpoint percentDecode (s : string) : string :=
  match s with
  | String p (String h (String l rest as r1) as r2) =>
      if isChar "%" p && isHexDigit h && isHexDigit l
      then String (ascii_of_N (16 * hexVal h + hexVal l)) (percentDecode rest)
      else String p (percentDecode r2)
  | String c rest => String c (percentDecode rest)
  | EmptyString => EmptyString
  end.

Definition isForbiddenHostCodePoint (c : ascii) : bool :=
  existsb (fun n => (code c =? n)%N)
    [0; 9; 10; 13; 32; 35; 47; 58; 60; 62; 63; 64; 91; 92; 93; 94; 124]%N.

Definition isForbiddenDomainCodePoint (c : ascii) : bool :=
  isForbiddenHostCodePoint c || (code c <=? 31)%N
  || (code c =? 37)%N || (code c =? 127)%N.

Definition lastChar (s : string) : option ascii :=
  match Js.rev s with
  | String c _ => Some c
  | EmptyString => None
  end.

(** Host parser. *)
Definition hostParse (isOpaque : bool) (input : string) : option string :=
  match input with
  | String c inner =>
      if isChar "[" c then
        match lastChar inner with
        | Some d =>
            if isChar "]" d
               && all (fun x => isHexDigit x || isChar ":" x || isChar "." x || isChar "]" x) inner
               && (2 <=? String.length inner)%nat
            then Some input else None
        | None => None
        end
      else if isOpaque then
        if any isForbiddenHostCodePoint input then None else Some input
      else
        let domain := percentDecode input in
        if any isForbiddenDomainCodePoint domain then None
        else match domain with
             | EmptyString => None
             | _ => Some (lower domain)
             end
  | EmptyString => if isOpaque then Some EmptyString else None
  end.

Fixpoint digitsValue (acc : N) (s : string) : N :=
  match s with
  | EmptyString => acc
  | String c rest => digitsValue (10 * acc + (code c - 48)) rest
  end.

(** Port state on the text after the colon. *)
Definition portState (s : string) : option (option N) :=
  if all isDigit s then
    match s with
    | EmptyString => Some None
    | _ => let p := digitsValue 0 s in
           if (65535 <? p)%N then None else Some (Some p)
    end
  else None.

(** Authority state: what follows the last [@] is the host and port. *)
Fixpoint afterLastAt (seen : bool) (buffer s : string) : bool * string :=
  match s with
  | EmptyString => (seen, buffer)
  | String c rest =>
      if isChar "@" c then afterLastAt true EmptyString rest
      else afterLastAt seen (snoc buffer c) rest
  end.

(** Host state: the first colon outside brackets starts the port. *)
Fixpoint splitHostPort (insideBrackets : bool) (buffer s : string)
  : string * option string :=
  match s with
  | EmptyString => (buffer, None)
  | String c rest =>
      if isChar ":" c && negb insideBrackets then (buffer, Some rest)
      else
        let inside :=
          if isChar "[" c then true else if isChar "]" c then false else insideBrackets in
        splitHostPort inside (snoc buffer c) rest
  end.

Definition authorityState (sch : string) (special : bool) (input : string)
  : option t :=
  let stop c := isChar "/" c || isChar "?" c || isChar "#" c || (special && isChar "\" c) in
  let (authority, rest) := span stop input in
  let (atSignSeen, hostport) := afterLastAt false EmptyString authority in
  if atSignSeen && (hostport =? "") then None
  else
    match splitHostPort false EmptyString hostport with
    | (h, Some p) =>
        if h =? "" then None
        else match hostParse (negb special) h, portState p with
             | Some h', Some p' => Some (mk sch (Some h') p' rest)
             | _, _ => None
             end
    | (h, None) =>
        if special && (h =? "") then None
        else match hostParse (negb special) h with
             | Some h' => Some (mk sch (Some h') None rest)
             | None => None
             end
    end.

Definition isSlash (c : ascii) : bool := isChar "/" c || isChar "\" c.

Definition isWindowsDriveLetter (s : string) : bool :=
  match s with
  | String a (String b EmptyString) => isAlpha a && (isChar ":" b || isChar "|" b)
  | _ => false
  end.

(** File, file slash and file host states. *)
Definition fileState (input : string) : option t :=
  match input with
  | String a (String b rest) =>
      if isSlash a && isSlash b then
        let stop c := isSlash c || isChar "?" c || isChar "#" c in
        let (buffer, rest') := span stop rest in
        if isWindowsDriveLetter buffer || (buffer =? "")
        then Some (mk "file" (Some "") None rest)
        else match hostParse false buffer with
             | Some h => Some (mk "file" (Some (if h =? "localhost" then "" else h)) None rest')
             | None => None
             end
      else Some (mk "file" (Some "") None input)
  | _ => Some (mk "file" (Some "") None input)
  end.

Definition afterScheme (sch rest : string) : option t :=
  if sch =? "file" then fileState rest
  else if isSpecial sch then
    authorityState sch true (dropWhile isSlash rest)
  else
    match rest with
    | String a (String b rest') =>
        if isChar "/" a && isChar "/" b then authorityState sch false rest'
        else Some (mk sch None None rest)
    | _ => Some (mk sch None None rest)
    end.

(** [new URL(input)]: [None] stands for the [TypeError] it throws. *)
Definition parse (input : string) : option t :=
  let stripped :=
    Js.rev (dropWhile isC0ControlOrSpace
              (Js.rev (dropWhile isC0ControlOrSpace input))) in
  match schemeStartState (remove isTabOrNewline stripped) with
  | Some (sch, rest) => afterScheme sch rest
  | None => None
  end.

End URL.

(** [isValidUrl] of [server/routes/api.js]: any input that [new URL]
    accepts is valid. *)
Definition isValidUrl (str : string) : bool :=
  match URL.parse str with
  | Some _ => true
  | None => false
  end.

(** ** [JSON.parse]

    A recursive-descent reading of the JSON grammar.  [None] stands for
    the [SyntaxError] that [JSON.parse] throws.  The recursion on nested
    values is driven by a fuel of twice the length of the text, which is
    never exhausted ([parse_fuel_independent] below). *)

Module JSON.
Import Js.

Definition isWs (c : ascii) : bool :=
  (code c =? 32)%N || (code c =? 9)%N || (code c =? 10)%N || (code c =? 13)%N.

Definition skipWs : string -> string := URL.dropWhile isWs.

(** What follows the literal [lit] at the head of [s]. *)
Fixpoint stripPrefix (lit s : string) : option string :=
  match lit with
  | EmptyString => Some s
  | String a lit' =>
      match s with
      | String b s' => if Ascii.eqb a b then stripPrefix lit' s' else None
      | EmptyString => None
      end
  end.

Definition expect (lit : string) (v : value) (s : string) : option (value * string) :=
  match stripPrefix lit s with
  | Some rest => Some (v, rest)
  | None => None
  end.

Fixpoint hex4 (n : nat) (acc : N) (s : string) : option (N * string) :=
  match n with
  | O => Some (acc, s)
  | S n' =>
      match s with
      | String c rest =>
          if URL.isHexDigit c then hex4 n' (16 * acc + URL.hexVal c) rest else None
      | EmptyString => None
      end
  end.

(** The characters of a string literal, after the opening quote.  An
    escaped code unit above 255 is outside the alphabet of the model
    and is kept as [?]. *)
Fixpoint parseChars (fuel : nat) (acc s : string) : option (string * string) :=
  match fuel with
  | O => None
  | S fuel' =>
      match s with
      | EmptyString => None
      | String c rest =>
          if URL.isChar dquote c then Some (acc, rest)
          else if URL.isChar "\" c then
            match rest with
            | String e rest' =>
                let continue x := parseChars fuel' (URL.snoc acc x) rest' in
                if URL.isChar dquote e then continue e
                else if URL.isChar "\" e then continue e
                else if URL.isChar "/" e then continue e
                else if URL.isChar "b" e then continue (ascii_of_N 8)
                else if URL.isChar "f" e then continue (ascii_of_N 12)
                else if URL.isChar "n" e then continue (ascii_of_N 10)
                else if URL.isChar "r" e then continue (ascii_of_N 13)
                else if URL.isChar "t" e then continue (ascii_of_N 9)
                else if URL.isChar "u" e then
                  match hex4 4 0 rest' with
                  | Some (n, rest'') =>
                      parseChars fuel'
                        (URL.snoc acc (if (n <? 256)%N then ascii_of_N n else "?"%char))
                        rest''
                  | None => None
                  end
                else None
            | EmptyString => None
            end
          else if (code c <? 32)%N then None
          else parseChars fuel' (URL.snoc acc c) rest
      end
  end.

Definition parseString (s : string) : option (string * string) :=
  parseChars (String.length s) EmptyString s.

(** A number literal: an optional minus, an integer part without
    leading zero, an optional fraction and an optional exponent.  Its
    value is [mantissa * 10 ^ exponent]. *)
Definition number (neg : bool) (int frac : string) (expNeg : bool) (ex : string)
  : value :=
  let m := Z.of_N (URL.digitsValue 0 (int ++ frac)) in
  let m := if neg then (- m)%Z else m in
  let e := Z.of_N (URL.digitsValue 0 ex) in
  let e := ((if expNeg then - e else e) - Z.of_nat (String.length frac))%Z in
  if (0 <=? e)%Z then JNumber (m * 10 ^ e) else JDecimal m e.

Definition digits : string -> string * string :=
  URL.span (fun c => negb (URL.isDigit c)).

Definition parseFraction (s : string) : option (string * string) :=
  match s with
  | String c rest =>
      if URL.isChar "." c then
        let (frac, s') := digits rest in
        if frac =? "" then None else Some (frac, s')
      else Some (EmptyString, s)
  | EmptyString => Some (EmptyString, s)
  end.

(** An optional sign: whether it is a minus, and what follows it. *)
Definition sign (plusAllowed : bool) (s : string) : bool * string :=
  match s with
  | String g rest =>
      if URL.isChar "-" g then (true, rest)
      else if plusAllowed && URL.isChar "+" g then (false, rest)
      else (false, s)
  | EmptyString => (false, s)
  end.

Definition parseExponent (s : string) : option (bool * string * string) :=
  match s with
  | String c rest =>
      if URL.isChar "e" c || URL.isChar "E" c then
        let (expNeg, rest1) := sign true rest in
        let (ex, s') := digits rest1 in
        if ex =? "" then None else Some (expNeg, ex, s')
      else Some (false, EmptyString, s)
  | EmptyString => Some (false, EmptyString, s)
  end.

Definition parseNumber (s : string) : option (value * string) :=
  let (neg, s1) := sign false s in
  let (int, s2) := digits s1 in
  let intOk :=
    match int with
    | EmptyString => false
    | String c rest => negb (URL.isChar "0" c) || (rest =? "")
    end in
  if negb intOk then None
  else
    match parseFraction s2 with
    | None => None
    | Some (frac, s3) =>
        match parseExponent s3 with
        | None => None
        | Some (expNeg, ex, s4) => Some (number neg int frac expNeg ex, s4)
        end
    end.

Fixpoint parseValue (fuel : nat) (s : string) {struct fuel} : option (value * string) :=
  match fuel with
  | O => None
  | S fuel' =>
      match skipWs s with
      | EmptyString => None
      | String c rest as s' =>
          if URL.isChar "{" c then
            match skipWs rest with
            | String d rest' =>
                if URL.isChar "}" d then Some (JObject [], rest')
                else parseMembers fuel' [] rest
            | EmptyString => None
            end
          else if URL.isChar "[" c then
            match skipWs rest with
            | String d rest' =>
                if URL.isChar "]" d then Some (JArray [], rest')
                else parseElements fuel' [] rest
            | EmptyString => None
            end
          else if URL.isChar dquote c then
            match parseString rest with
            | Some (str, rest') => Some (JString str, rest')
            | None => None
            end
          else if URL.isChar "t" c then expect "true" (JBool true) s'
          else if URL.isChar "f" c then expect "false" (JBool false) s'
          else if URL.isChar "n" c then expect "null" JNull s'
          else parseNumber s'
      end
  end
with parseElements (fuel : nat) (acc : list value) (s : string) {struct fuel}
  : option (value * string) :=
  match fuel with
  | O => None
  | S fuel' =>
      match parseValue fuel' s with
      | Some (v, rest) =>
          match skipWs rest with
          | String c rest' =>
              if URL.isChar "," c then parseElements fuel' (v :: acc) rest'
              else if URL.isChar "]" c then Some (JArray (List.rev (v :: acc)), rest')
              else None
          | EmptyString => None
          end
      | None => None
      end
  end
with parseMembers (fuel : nat) (acc : list (string * value)) (s : string) {struct fuel}
  : option (value * string) :=
  match fuel with
  | O => None
  | S fuel' =>
      match skipWs s with
      | String q rest =>
          if URL.isChar dquote q then
            match parseString rest with
            | Some (key, rest1) =>
                match skipWs rest1 with
                | String c rest2 =>
                    if URL.isChar ":" c then
                      match parseValue fuel' rest2 with
                      | Some (v, rest3) =>
                          match skipWs rest3 with
                          | String d rest4 =>
                              if URL.isChar "," d
                              then parseMembers fuel' ((key, v) :: acc) rest4
                              else if URL.isChar "}" d
                              then Some (JObject (List.rev ((key, v) :: acc)), rest4)
                              else None
                          | EmptyString => None
                          end
                      | None => None
                      end
                    else None
                | EmptyString => None
                end
            | None => None
            end
          else None
      | EmptyString => None
      end
  end.

(** [JSON.parse(text)] *)
Definition parse (text : string) : option value :=
  match parseValue (2 * String.length text + 2) text with
  | Some (v, rest) => if skipWs rest =? "" then Some v else None
  | None => None
  end.

End JSON.

(** ** The backend: [server/routes/api.js]

    A handler runs in a monad that threads the log of the requests it
    has sent to the provider and may throw.  The provider is an
    arbitrary oracle: for each request, given the requests sent before
    it, it either answers or makes [axios] reject with an error. *)

Module Server.
Import Js.

Inductive HttpCall : Type :=
| AxiosPost (url : string) (data : value)
            (headers : list (string * value)) (timeout : Z)
| AxiosGet (url : string) (headers : list (string * value))
           (timeout : option Z).

Record AxiosResponse : Type :=
  { status : Z; data : value }.

(** What a [catch] clause can receive: the fields of the thrown error
    that the handlers read. *)
Record Error : Type :=
  { response : option AxiosResponse;
    code : value;
    message : string }.

Definition TypeError (msg : string) : Error :=
  {| response := None; code := JUndefined; message := msg |}.

Record HttpResponse : Type :=
  { statusCode : Z; body : value }.

Definition Log : Type := list HttpCall.

Definition M (A : Type) : Type := Log -> (Error + A) * Log.

Definition ret {A} (x : A) : M A := fun log => (inr x, log).

Definition bind {A B} (c : M A) (k : A -> M B) : M B :=
  fun log =>
    match c log with
    | (inr x, log') => k x log'
    | (inl e, log') => (inl e, log')
    end.

Definition throw {A} (e : Error) : M A := fun log => (inl e, log).

Definition tryCatch {A} (c : M A) (handler : Error -> M A) : M A :=
  fun log =>
    match c log with
    | (inr x, log') => (inr x, log')
    | (inl e, log') => handler e log'
    end.

Declare Scope server_scope.
Delimit Scope server_scope with server.
Notation "x <- c ;; k" := (bind c (fun x => k))
  (at level 61, c at next level, right associativity) : server_scope.
Local Open Scope server_scope.

(** [v.trim()]: a [TypeError] unless [v] is a string. *)
Definition callTrim (v : value) : M string :=
  match v with
  | JString s => ret (trim s)
  | _ => throw (TypeError "trim is not a function")
  end.

(** [v.k]: a [TypeError] when [v] is [undefined] or [null]. *)
Definition getMember (v : value) (k : string) : M value :=
  match v with
  | JUndefined | JNull => throw (TypeError "Cannot read properties of undefined")
  | _ => ret (optMember v k)
  end.

(** [res.status(n).json(obj)] *)
Definition json (n : Z) (fields : list (string * value)) : HttpResponse :=
  {| statusCode := n; body := JObject fields |}.

Definition errorBody (n : Z) (msg : value) (c : string) : HttpResponse :=
  json n [("error", msg); ("code", JString c)].

Definition REBRANDLY_BASE_URL : string := "https://api.rebrandly.com/v1".

(** [error.response?.status] *)
Definition responseStatus (error : Error) : option Z :=
  option_map status (response error).

(** [error.response?.data] *)
Definition responseData (error : Error) : value :=
  match response error with
  | Some r => data r
  | None => JUndefined
  end.

Definition statusIs (error : Error) (n : Z) : bool :=
  match responseStatus error with
  | Some m => (m =? n)%Z
  | None => false
  end.

Definition codeIs (error : Error) (c : string) : bool :=
  match code error with
  | JString c' => c' =? c
  | _ => false
  end.

(** The [catch] clause of [POST /shorten]. *)
Definition shortenCatch (error : Error) : HttpResponse :=
  if statusIs error 403 then
    errorBody 403 (JString "Invalid API key or quota exceeded") "API_KEY_ERROR"
  else if statusIs error 422 then
    let errorMessage :=
      or_else
        (optMember (optIndex0 (optMember (responseData error) "errors")) "message")
        (JString "Invalid URL or custom slug already exists") in
    errorBody 422 errorMessage "VALIDATION_ERROR"
  else if statusIs error 429 then
    errorBody 429 (JString "Rate limit exceeded. Please try again later.") "RATE_LIMIT"
  else if codeIs error "ECONNABORTED" then
    errorBody 408 (JString "Request timeout. Please try again.") "TIMEOUT"
  else
    errorBody 500 (JString "Failed to shorten URL. Please try again.") "INTERNAL_ERROR".

(** The [catch] clause of [GET /test]. *)
Definition testCatch (error : Error) : HttpResponse :=
  json 500
    [("success", JBool false);
     ("error", JString "API key test failed");
     ("code", JString (if statusIs error 403 then "INVALID_API_KEY" else "TEST_FAILED"));
     ("details", or_else (responseData error) (JString (message error)))].

Section Routes.

(** [process.env.REBRANDLY_API_KEY] *)
Variable REBRANDLY_API_KEY : value.

(** The provider behind [axios]: how it settles each request, with a
    response or with an error (a timeout that expires is the error
    [ECONNABORTED]).  Runs in which a request is never settled have no
    counterpart here; only a request without [timeout], the one of
    [GET /stats], can be left so. *)
Variable rebrandly : Log -> HttpCall -> Error + AxiosResponse.

Definition axios (call : HttpCall) : M AxiosResponse :=
  fun log => (rebrandly log call, (log ++ [call])%list).

Definition axios_post url payload headers timeout : M AxiosResponse :=
  axios (AxiosPost url payload headers timeout).

Definition axios_get url headers timeout : M AxiosResponse :=
  axios (AxiosGet url headers timeout).

(** [!url || !url.trim()] *)
Definition urlMissing (url : value) : M bool :=
  if negb (truthy url) then ret true
  else t <- callTrim url ;; ret (negb (truthy (JString t))).

(** [customSlug && !isValidSlug(customSlug.trim())] *)
Definition slugInvalid (customSlug : value) : M bool :=
  if truthy customSlug
  then t <- callTrim customSlug ;; ret (negb (isValidSlug (Some t)))
  else ret false.

(** [customSlug && customSlug.trim()] *)
Definition slugProvided (customSlug : value) : M bool :=
  if truthy customSlug
  then t <- callTrim customSlug ;; ret (truthy (JString t))
  else ret false.

Definition shortenHeaders : list (string * value) :=
  [("apikey", REBRANDLY_API_KEY); ("Content-Type", JString "application/json")].

(** The [try] block of [POST /shorten], after [url] and [customSlug]
    have been taken from the request body. *)
Definition shortenWith (url customSlug : value) : M HttpResponse :=
  missing <- urlMissing url ;;
  if missing then
    ret (errorBody 400 (JString "URL is required") "MISSING_URL")
  else
    trimmed <- callTrim url ;;
    if negb (isValidUrl trimmed) then
      ret (errorBody 400 (JString "Please enter a valid URL") "INVALID_URL")
    else
      invalid <- slugInvalid customSlug ;;
      if invalid then
        ret (errorBody 400
               (JString "Custom slug must be 3-50 characters and contain only letters, numbers, hyphens, and underscores")
               "INVALID_SLUG")
      else
        destination <- callTrim url ;;
        let rebrandlyData :=
          [("destination", JString destination);
           ("domain", JObject [("fullName", JString "rebrand.ly")])] in
        provided <- slugProvided customSlug ;;
        rebrandlyData <-
          (if provided
           then slashtag <- callTrim customSlug ;;
                ret (rebrandlyData ++ [("slashtag", JString slashtag)])%list
           else ret rebrandlyData) ;;
        response <- axios_post (REBRANDLY_BASE_URL ++ "/links")
                      (JObject rebrandlyData) shortenHeaders 10000 ;;
        shortUrl <- getMember (data response) "shortUrl" ;;
        originalUrl <- callTrim url ;;
        id <- getMember (data response) "id" ;;
        slashtag <- getMember (data response) "slashtag" ;;
        createdAt <- getMember (data response) "createdAt" ;;
        ret (json 200
               [("success", JBool true);
                ("shortUrl", shortUrl);
                ("originalUrl", JString originalUrl);
                ("id", id);
                ("customSlug", or_else slashtag JNull);
                ("createdAt", createdAt)]).

(** The [try] block of [POST /shorten]:
    [const { url, customSlug } = req.body], then the rest. *)
Definition shortenTry (req_body : value) : M HttpResponse :=
  url <- getMember req_body "url" ;;
  customSlug <- getMember req_body "customSlug" ;;
  shortenWith url customSlug.

(** [router.post('/shorten', ...)] *)
Definition shorten (req_body : value) : M HttpResponse :=
  tryCatch (shortenTry req_body) (fun error => ret (shortenCatch error)).

(** [router.get('/test', ...)] *)
Definition test : M HttpResponse :=
  tryCatch
    (response <- axios_get (REBRANDLY_BASE_URL ++ "/account")
                   [("apikey", REBRANDLY_API_KEY)] (Some 5000%Z) ;;
     id <- getMember (data response) "id" ;;
     email <- getMember (data response) "email" ;;
     fullName <- getMember (data response) "fullName" ;;
     createdAt <- getMember (data response) "createdAt" ;;
     ret (json 200
            [("success", JBool true);
             ("message", JString "API key is valid");
             ("account", JObject [("id", id); ("email", email);
                                  ("fullName", fullName);
                                  ("createdAt", createdAt)])]))
    (fun error => ret (testCatch error)).

(** The [catch] clause of [GET /stats]. *)
Definition statsCatch (error : Error) : HttpResponse :=
  json 500
    [("success", JBool false);
     ("error", JString "Failed to fetch account stats")].

(** [router.get('/stats', ...)] *)
Definition stats : M HttpResponse :=
  tryCatch
    (response <- axios_get (REBRANDLY_BASE_URL ++ "/account")
                   [("apikey", REBRANDLY_API_KEY)] None ;;
     linksCreated <- getMember (data response) "linksCreated" ;;
     linksLimit <- getMember (data response) "linksLimit" ;;
     clicksTracked <- getMember (data response) "clicksTracked" ;;
     ret (json 200
            [("success", JBool true);
             ("stats",
              JObject [("linksCreated", or_else linksCreated (JNumber 0));
                       ("linksLimit", or_else linksLimit (JString "Unlimited"));
                       ("clicksTracked", or_else clicksTracked (JNumber 0))])]))
    (fun error => ret (statsCatch error)).

End Routes.

(** The [code] field of an error body. *)
Definition codeOf (r : HttpResponse) : value := optMember (body r) "code".

(** The [error] field of an error body. *)
Definition errorOf (r : HttpResponse) : value := optMember (body r) "error".

End Server.

(** ** The frontend: [src/components/URLShortener.jsx] *)

Module Client.
Import Js.

(** The component's [isValidUrl]. *)
Definition isValidUrl (str : string) : bool :=
  match URL.parse str with
  | Some url => (URL.protocol url =? "http:") || (URL.protocol url =? "https:")
  | None => false
  end.

(** [fullUrl.match(/^https?:\/\//)] *)
Definition hasHttpPrefix (s : string) : bool :=
  String.prefix "http://" s || String.prefix "https://" s.

(** *** History *)

(** An entry of [urlHistory].  [id] is the reading of [Date.now()] and
    [createdAt] the instant that [new Date().toISOString()] prints,
    both in milliseconds. *)
Record HistoryEntry : Type :=
  { id : Z;
    originalUrl : string;
    shortUrl : value;
    customSlug : value;
    createdAt : Z;
    rebrandlyId : value }.

Inductive completion (A : Type) : Type :=
| Normal (x : A)
| Throw (name : string).
Arguments Normal {A} x.
Arguments Throw {A} name.

(** [JSON.parse(localStorage.getItem('urlHistory') || '[]')], where
    [stored] is what [getItem] finds under the key, [None] for [null]. *)
Definition loadHistory (stored : option string) : completion value :=
  let text :=
    match stored with
    | Some s => if truthy (JString s) then s else "[]"
    | None => "[]"
    end in
  match JSON.parse text with
  | Some savedHistory => Normal savedHistory
  | None => Throw "SyntaxError"
  end.

(** [prev => [newEntry, ...prev.slice(0, 9)]] *)
Definition record (newEntry : HistoryEntry) (prev : list HistoryEntry)
  : list HistoryEntry :=
  newEntry :: slice0 9 prev.

(** [prev.filter(item => item.id !== id)] *)
Definition deleteFromHistory (rid : Z) (prev : list HistoryEntry)
  : list HistoryEntry :=
  filter (fun item => negb (id item =? rid)%Z) prev.

Definition clearAllHistory : list HistoryEntry := [].

(** *** The form *)

Inductive ApiStatus : Type := Connected | ApiError | Unknown.

Record State : Type :=
  { url : string;
    customSlugInput : string;
    shortenedUrl : value;
    isLoading : bool;
    copied : bool;
    error : string;
    urlHistory : list HistoryEntry;
    apiStatus : ApiStatus }.

(** The body of [/api/shorten]'s reply, as the component reads it. *)
Record Reply : Type :=
  { ok : bool;
    replyError : option string;
    success : bool;
    replyShortUrl : value;
    replyCustomSlug : value;
    replyId : value }.

Inductive FetchOutcome : Type :=
| Rejected (message : string)
| Responded (r : Reply).

(** Requests that a handler sends. *)
Inductive Effect : Type :=
| FetchTest
| FetchShorten (fullUrl : string) (slug : option string)
| ClipboardWrite (text : value).

Inductive Event : Type :=
| ChangeUrl (v : string)
| ChangeCustomSlug (v : string)
| KeyPress (key : string)
| ClickShorten
| ClickRetry
| ClickCopy (text : value)
| ClickReset
| ClickDelete (rid : Z)
| ClickClearAll
| CopiedTimeout
| TestSettled (dataSuccess : option bool)
| ShortenSettled (fullUrl : string) (outcome : FetchOutcome) (now : Z).

Definition initial (savedHistory : list HistoryEntry) : State :=
  {| url := ""; customSlugInput := ""; shortenedUrl := JString "";
     isLoading := false; copied := false; error := "";
     urlHistory := savedHistory; apiStatus := Unknown |}.

Definition setError (st : State) (msg : string) : State :=
  {| url := url st; customSlugInput := customSlugInput st;
     shortenedUrl := shortenedUrl st; isLoading := isLoading st;
     copied := copied st; error := msg; urlHistory := urlHistory st;
     apiStatus := apiStatus st |}.

Definition setIsLoading (st : State) (b : bool) : State :=
  {| url := url st; customSlugInput := customSlugInput st;
     shortenedUrl := shortenedUrl st; isLoading := b;
     copied := copied st; error := error st; urlHistory := urlHistory st;
     apiStatus := apiStatus st |}.

Definition setShortenedUrl (st : State) (v : value) : State :=
  {| url := url st; customSlugInput := customSlugInput st;
     shortenedUrl := v; isLoading := isLoading st;
     copied := copied st; error := error st; urlHistory := urlHistory st;
     apiStatus := apiStatus st |}.

Definition setUrlHistory (st : State)
    (f : list HistoryEntry -> list HistoryEntry) : State :=
  {| url := url st; customSlugInput := customSlugInput st;
     shortenedUrl := shortenedUrl st; isLoading := isLoading st;
     copied := copied st; error := error st; urlHistory := f (urlHistory st);
     apiStatus := apiStatus st |}.

Definition setApiStatus (st : State) (a : ApiStatus) : State :=
  {| url := url st; customSlugInput := customSlugInput st;
     shortenedUrl := shortenedUrl st; isLoading := isLoading st;
     copied := copied st; error := error st; urlHistory := urlHistory st;
     apiStatus := a |}.

Definition setUrl (st : State) (v : string) : State :=
  {| url := v; customSlugInput := customSlugInput st;
     shortenedUrl := shortenedUrl st; isLoading := isLoading st;
     copied := copied st; error := error st; urlHistory := urlHistory st;
     apiStatus := apiStatus st |}.

Definition setCustomSlug (st : State) (v : string) : State :=
  {| url := url st; customSlugInput := v;
     shortenedUrl := shortenedUrl st; isLoading := isLoading st;
     copied := copied st; error := error st; urlHistory := urlHistory st;
     apiStatus := apiStatus st |}.

Definition setCopied (st : State) (b : bool) : State :=
  {| url := url st; customSlugInput := customSlugInput st;
     shortenedUrl := shortenedUrl st; isLoading := isLoading st;
     copied := b; error := error st; urlHistory := urlHistory st;
     apiStatus := apiStatus st |}.

(** [shortenUrl], up to the [fetch] it sends. *)
Definition shortenUrl (st : State) : State * list Effect :=
  if negb (truthy (JString (trim (url st)))) then
    (setError st "Please enter a URL", [])
  else
    let fullUrl := trim (url st) in
    let fullUrl := if negb (hasHttpPrefix fullUrl) then "https://" ++ fullUrl else fullUrl in
    if negb (isValidUrl fullUrl) then
      (setError st "Please enter a valid URL", [])
    else
      let slug := trim (customSlugInput st) in
      (setShortenedUrl (setError (setIsLoading st true) "") (JString ""),
       [FetchShorten fullUrl (if truthy (JString slug) then Some slug else None)]).

(** [s.includes(sub)] *)
Fixpoint includes (sub s : string) : bool :=
  String.prefix sub s ||
  match s with
  | String _ rest => includes sub rest
  | EmptyString => false
  end.

(** The message that the [catch] clause of [shortenUrl] displays. *)
Definition displayedError (message : string) : string :=
  if includes "quota exceeded" message then
    "Monthly quota exceeded. Please try again next month or upgrade your plan."
  else if includes "already exists" message then
    "This custom slug is already taken. Please try a different one."
  else if includes "Invalid URL" message then
    "Please enter a valid URL starting with http:// or https://"
  else if truthy (JString message) then message
  else "Failed to shorten URL. Please try again.".

(** The entry that [shortenUrl] builds.  [new Date().toISOString()] is
    a second reading of the clock, at or after the one of [Date.now()];
    it is taken here at the instant of [now], and no property names
    [createdAt]. *)
Definition newEntry (now : Z) (fullUrl : string) (data : Reply) : HistoryEntry :=
  {| id := now;
     originalUrl := fullUrl;
     shortUrl := replyShortUrl data;
     customSlug := or_else (replyCustomSlug data) JNull;
     createdAt := now;
     rebrandlyId := replyId data |}.

(** [shortenUrl], from the moment the [fetch] settles. *)
Definition shortenSettled (st : State) (fullUrl : string)
    (outcome : FetchOutcome) (now : Z) : State :=
  let thrown (message : string) :=
    setIsLoading (setError st (displayedError message)) false in
  match outcome with
  | Rejected message => thrown message
  | Responded data =>
      if negb (ok data) then
        thrown (match replyError data with
                | Some e => if truthy (JString e) then e else "Failed to shorten URL"
                | None => "Failed to shorten URL"
                end)
      else if success data then
        setIsLoading
          (setUrlHistory (setShortenedUrl st (replyShortUrl data))
                         (record (newEntry now fullUrl data)))
          false
      else thrown "Failed to shorten URL"
  end.

(** [handleKeyPress] *)
Definition handleKeyPress (st : State) (key : string) : State * list Effect :=
  if (key =? "Enter") && negb (isLoading st) then shortenUrl st else (st, []).

(** The [disabled] attribute of the two inputs. *)
Definition inputDisabled (st : State) : bool := isLoading st.

(** The [disabled] attribute of the shorten button. *)
Definition buttonDisabled (st : State) : bool :=
  isLoading st ||
  match apiStatus st with
  | ApiError => true
  | _ => false
  end.

(** [testApiConnection], up to the [fetch] it sends. *)
Definition testApiConnection (st : State) : State * list Effect :=
  (st, [FetchTest]).

(** [testApiConnection], from the moment the [fetch] settles:
    [dataSuccess] is [data.success], [None] when the [fetch] or the
    decoding of its body was rejected. *)
Definition testSettled (st : State) (dataSuccess : option bool) : State :=
  match dataSuccess with
  | Some true => setApiStatus st Connected
  | _ => setApiStatus st ApiError
  end.

(** [resetForm] *)
Definition resetForm (st : State) : State :=
  setError (setShortenedUrl (setCustomSlug (setUrl st "") "") (JString "")) "".

(** [copyToClipboard], up to the write it requests. *)
Definition copyToClipboard (st : State) (text : value) : State * list Effect :=
  (setCopied st true, [ClipboardWrite text]).

(** One event of the page.  A disabled control fires no event. *)
Definition dispatch (st : State) (ev : Event) : State * list Effect :=
  match ev with
  | ChangeUrl v => if inputDisabled st then (st, []) else (setUrl st v, [])
  | ChangeCustomSlug v =>
      if inputDisabled st then (st, []) else (setCustomSlug st v, [])
  | KeyPress key => if inputDisabled st then (st, []) else handleKeyPress st key
  | ClickShorten => if buttonDisabled st then (st, []) else shortenUrl st
  | ClickRetry =>
      match apiStatus st with
      | ApiError => testApiConnection st
      | _ => (st, [])
      end
  | ClickCopy text => copyToClipboard st text
  | ClickReset => (resetForm st, [])
  | ClickDelete rid => (setUrlHistory st (deleteFromHistory rid), [])
  | ClickClearAll => (setUrlHistory st (fun _ => clearAllHistory), [])
  | CopiedTimeout => (setCopied st false, [])
  | TestSettled dataSuccess => (testSettled st dataSuccess, [])
  | ShortenSettled fullUrl outcome now =>
      (shortenSettled st fullUrl outcome now, [])
  end.

(** The page after a sequence of events, with every request sent on
    the way. *)
Fixpoint run (st : State) (evs : list Event) : State * list Effect :=
  match evs with
  | [] => (st, [])
  | ev :: rest =>
      let (st1, out1) := dispatch st ev in
      let (st2, out2) := run st1 rest in
      (st2, (out1 ++ out2)%list)
  end.

(** Mounting the component: the saved history is installed and the
    credential probe is sent. *)
Definition mount (savedHistory : list HistoryEntry) : State * list Effect :=
  testApiConnection (initial savedHistory).

Definition isShorten (e : Effect) : bool :=
  match e with
  | FetchShorten _ _ => true
  | _ => false
  end.

End Client.

(** ** The application: [server/server.js] *)

Module App.
Import Js.

(** [s.split(sep)] for a separator of one character. *)
Fixpoint splitFrom (sep : ascii) (current s : string) : list string :=
  match s with
  | EmptyString => [current]
  | String c rest =>
      if Ascii.eqb c sep then current :: splitFrom sep EmptyString rest
      else splitFrom sep (current ++ String c EmptyString) rest
  end.

Definition split (sep : ascii) (s : string) : list string :=
  splitFrom sep EmptyString s.

(** [list.includes(x)] on strings *)
Definition includes (l : list string) (x : string) : bool :=
  existsb (String.eqb x) l.

(** What a middleware passes to [next] or to a callback as its error:
    the fields that the error handler reads. *)
Record AppError : Type :=
  { message : string;
    status : option Z;
    stack : value }.

(** [new Error(msg)], with the stack trace it captures. *)
Definition newError (msg stackTrace : string) : AppError :=
  {| message := msg; status := None; stack := JString stackTrace |}.

(** The list that [corsOptions.origin] computes from
    [process.env.FRONTEND_URL] ([None] when the variable is not set). *)
Definition allowedOrigins (FRONTEND_URL : option string) : list string :=
  match FRONTEND_URL with
  | Some f =>
      if truthy (JString f) then List.map trim (split "," f)
      else ["http://localhost:5173"; "http://localhost:3000"]
  | None => ["http://localhost:5173"; "http://localhost:3000"]
  end.

(** [corsOptions.origin(origin, callback)]: [None] is
    [callback(null, true)], [Some err] is [callback(err)].  The origin
    is [None] when the request has no [Origin] header. *)
Definition corsOrigin (FRONTEND_URL : option string) (stackTrace : string)
    (origin : option string) : option AppError :=
  match origin with
  | None => None
  | Some o =>
      if negb (truthy (JString o)) then None
      else if includes (allowedOrigins FRONTEND_URL) o then None
      else Some (newError "Not allowed by CORS" stackTrace)
  end.

(** [err.status || 500] *)
Definition statusOr500 (err : AppError) : Z :=
  match status err with
  | Some n => if (n =? 0)%Z then 500%Z else n
  | None => 500%Z
  end.

(** The error-handling middleware; [now] is what
    [new Date().toISOString()] prints. *)
Definition errorHandler (isProduction : bool) (now : string) (err : AppError)
  : Server.HttpResponse :=
  if message err =? "Not allowed by CORS" then
    Server.json 403
      [("error", JString "CORS policy violation");
       ("message", JString "Origin not allowed")]
  else if match status err with
          | Some n => (n =? 429)%Z
          | None => false
          end then
    Server.json 429
      [("error", JString "Rate limit exceeded");
       ("message", JString "Too many requests, please try again later")]
  else
    let errorResponse :=
      [("error", JString "Internal server error");
       ("timestamp", JString now)] in
    let errorResponse :=
      if negb isProduction
      then (errorResponse
              ++ [("details", JString (message err)); ("stack", stack err)])%list
      else errorResponse in
    Server.json (statusOr500 err) errorResponse.


End App.

(** * Vocabulary of the properties *)

Open Scope list_scope.

(** ** Slugs *)

(** The characters the specification allows in a slug. *)
Definition slugCharset : list ascii :=
  list_ascii_of_string
    "ABCDEFGHIJKLMNOPQRSTUVWXYZabcdefghijklmnopqrstuvwxyz0123456789_-".

Definition inSlugCharset (c : ascii) : Prop := In c slugCharset.

Definition chars : string -> list ascii := list_ascii_of_string.

(** ** History *)

Section HistoryTerms.
Import Client.

(** The settled requests on which [shortenUrl] creates an entry. *)
Definition creates (outcome : FetchOutcome) : bool :=
  match outcome with
  | Responded r => ok r && success r
  | Rejected _ => false
  end.

(** What an event does to the history. *)
Definition historyAfter (h : list HistoryEntry) (ev : Event) : list HistoryEntry :=
  match ev with
  | ShortenSettled fullUrl (Responded r) now =>
      if creates (Responded r) then record (newEntry now fullUrl r) h else h
  | ClickDelete rid => deleteFromHistory rid h
  | ClickClearAll => []
  | _ => h
  end.

Definition exampleReply : Reply :=
  {| ok := true; replyError := None; success := true;
     replyShortUrl := Js.JString "https://rebrand.ly/abc";
     replyCustomSlug := Js.JUndefined;
     replyId := Js.JString "a1" |}.

(** The ids of the entries, in order. *)
Definition ids (h : list HistoryEntry) : list Z := map id h.



End HistoryTerms.

(** ** The handlers, summarised *)

Section ProxyTerms.
Import Js Server.

Variable key : value.
Variable rebrandly : Log -> HttpCall -> Error + AxiosResponse.

(** The request that [POST /shorten] sends to the provider. *)
Definition linksCall (destination : string) (slashtag : option string) : HttpCall :=
  AxiosPost "https://api.rebrandly.com/v1/links"
    (JObject
       ([("destination", JString destination);
         ("domain", JObject [("fullName", JString "rebrand.ly")])]
        ++ match slashtag with
           | Some t => [("slashtag", JString t)]
           | None => []
           end))
    (shortenHeaders key) 10000.

(** The request that [GET /test] sends to the provider. *)
Definition accountCall : HttpCall :=
  AxiosGet "https://api.rebrandly.com/v1/account" [("apikey", key)] (Some 5000%Z).

Definition missingUrl : HttpResponse :=
  errorBody 400 (JString "URL is required") "MISSING_URL".

Definition invalidUrl : HttpResponse :=
  errorBody 400 (JString "Please enter a valid URL") "INVALID_URL".

Definition invalidSlug : HttpResponse :=
  errorBody 400
    (JString "Custom slug must be 3-50 characters and contain only letters, numbers, hyphens, and underscores")
    "INVALID_SLUG".

(** What the handler has decided when it reaches (or not) the request
    to the provider. *)
Inductive Verdict : Type :=
| Answer (resp : HttpResponse)
| Forward (destination : string) (slashtag : option string).

Definition notAString : HttpResponse :=
  shortenCatch (TypeError "trim is not a function").

Definition slugVerdict (destination : string) (customSlug : value) : Verdict :=
  match customSlug with
  | JString s =>
      if s =? "" then Forward destination None
      else if isValidSlug (Some (trim s))
           then Forward destination (if trim s =? "" then None else Some (trim s))
           else Answer invalidSlug
  | _ => if truthy customSlug then Answer notAString else Forward destination None
  end.

Definition fieldsVerdict (url customSlug : value) : Verdict :=
  match url with
  | JString u =>
      if trim u =? "" then Answer missingUrl
      else if isValidUrl (trim u) then slugVerdict (trim u) customSlug
           else Answer invalidUrl
  | _ => if truthy url then Answer notAString else Answer missingUrl
  end.

Definition verdict (req_body : value) : Verdict :=
  match req_body with
  | JUndefined | JNull =>
      Answer (shortenCatch (TypeError "Cannot read properties of undefined"))
  | _ => fieldsVerdict (optMember req_body "url") (optMember req_body "customSlug")
  end.

(** The reply built from the provider's response. *)
Definition onResponse (originalUrl : string) (response : AxiosResponse) : HttpResponse :=
  match data response with
  | JUndefined | JNull =>
      shortenCatch (TypeError "Cannot read properties of undefined")
  | d =>
      json 200
        [("success", JBool true);
         ("shortUrl", optMember d "shortUrl");
         ("originalUrl", JString originalUrl);
         ("id", optMember d "id");
         ("customSlug", or_else (optMember d "slashtag") JNull);
         ("createdAt", optMember d "createdAt")]
  end.

(** A verdict carried out: the answer and the log it leaves. *)
Definition runVerdict (v : Verdict) (log : Log) : (Error + HttpResponse) * Log :=
  match v with
  | Answer resp => (inr resp, log)
  | Forward destination slashtag =>
      let call := linksCall destination slashtag in
      (inr match rebrandly log call with
           | inl e => shortenCatch e
           | inr response => onResponse destination response
           end,
       log ++ [call])
  end.

(** The reply of [GET /test] built from the provider's response. *)
Definition onAccount (response : AxiosResponse) : HttpResponse :=
  match data response with
  | JUndefined | JNull =>
      testCatch (TypeError "Cannot read properties of undefined")
  | d =>
      json 200
        [("success", JBool true);
         ("message", JString "API key is valid");
         ("account", JObject [("id", optMember d "id");
                              ("email", optMember d "email");
                              ("fullName", optMember d "fullName");
                              ("createdAt", optMember d "createdAt")])]
  end.

(** The codes of the answers given before any request. *)
Definition isValidationCode (c : value) : bool :=
  match c with
  | JString s => (s =? "MISSING_URL") || (s =? "INVALID_URL") || (s =? "INVALID_SLUG")
  | _ => false
  end.

(** The body [{url, customSlug}], or [{url}] without a slug. *)
Definition requestBody (url : value) (customSlug : option value) : value :=
  JObject (("url", url)
           :: match customSlug with
              | Some v => [("customSlug", v)]
              | None => []
              end).

Definition slugField (customSlug : option value) : value :=
  match customSlug with
  | Some v => v
  | None => JUndefined
  end.

(** The body that the interface of the route describes: an object whose
    [url] and [customSlug] are strings when they are present. *)
Definition stringOrAbsent (v : value) : bool :=
  match v with
  | JString _ | JUndefined | JNull => true
  | _ => false
  end.

Definition wellTyped (req_body : value) : bool :=
  match req_body with
  | JObject _ =>
      stringOrAbsent (optMember req_body "url")
      && stringOrAbsent (optMember req_body "customSlug")
  | _ => false
  end.

(** A value on which [.trim()] is called and is not a function: the
    guards [!url] and [customSlug &&] let a truthy value through, and
    only a string has [trim]. *)
Definition truthyNonString (v : value) : bool :=
  match v with
  | JString _ => false
  | _ => truthy v
  end.

(** The bodies on which the handler can throw before the request: no
    body at all (the destructuring throws), or a [url] or [customSlug]
    that is truthy and not a string. *)
Definition misTyped (req_body : value) : bool :=
  match req_body with
  | JUndefined | JNull => true
  | _ =>
      truthyNonString (optMember req_body "url")
      || truthyNonString (optMember req_body "customSlug")
  end.

(** The answer of the [catch] block to an error that is none of the
    provider's. *)
Definition internalError : HttpResponse :=
  errorBody 500 (JString "Failed to shorten URL. Please try again.") "INTERNAL_ERROR".

(** The message of the first field error that the provider reports. *)
Definition firstFieldMessage (e : Error) : value :=
  optMember (optIndex0 (optMember (responseData e) "errors")) "message".

(** No response, or a response with a status other than 403, 422 and
    429. *)
Definition plainStatus (e : Error) : Prop :=
  responseStatus e <> Some 403%Z /\ responseStatus e <> Some 422%Z
  /\ responseStatus e <> Some 429%Z.

Definition whitespaceOnly (s : string) : Prop :=
  Forall (fun c => isWhiteSpace c = true) (chars s).

End ProxyTerms.

(** ** Explicit providers and states *)

Section ProviderTerms.
Import Js Server.

(** A provider that fails every request with [e]. *)
Definition rejecting (e : Error) : Log -> HttpCall -> Error + AxiosResponse :=
  fun _ _ => inl e.

(** A provider that answers every request with [r]. *)
Definition answering (r : AxiosResponse) : Log -> HttpCall -> Error + AxiosResponse :=
  fun _ _ => inr r.

Definition slashtagTaken : Error :=
  {| response :=
       Some {| status := 422;
               data := JObject
                         [("errors",
                           JArray [JObject [("message", JString "slashtag already exists")]])] |};
     code := JString "ERR_BAD_REQUEST";
     message := "Request failed with status code 422" |}.

Definition timedOut : Error :=
  {| response := None;
     code := JString "ECONNABORTED";
     message := "timeout of 10000ms exceeded" |}.

Definition forbidden : Error :=
  {| response := Some {| status := 403; data := JObject [("message", JString "Forbidden")] |};
     code := JString "ERR_BAD_REQUEST";
     message := "Request failed with status code 403" |}.

Definition created : AxiosResponse :=
  {| status := 200;
     data := JObject [("id", JString "a1");
                      ("shortUrl", JString "rebrand.ly/my-link");
                      ("slashtag", JString "my-link");
                      ("createdAt", JString "2024-01-01T00:00:00.000Z")] |}.

Definition apiKey : value := JString "k".

End ProviderTerms.

(** The requests that an event makes the page send. *)
Definition sent (st : Client.State) (ev : Client.Event) : list Client.Effect :=
  snd (Client.dispatch st ev).

(** The page once the credential probe has failed and a URL is typed. *)
Definition afterFailedProbe : Client.State :=
  fst (Client.run (Client.initial [])
         [Client.TestSettled (Some false); Client.ChangeUrl "https://example.com"]).

(** * Vocabulary of the further properties *)

Section TrimTerms.
Import Js.

(** No white space at the head. *)
Definition headClean (s : string) : bool :=
  match s with
  | EmptyString => true
  | String c _ => negb (isWhiteSpace c)
  end.

Fixpoint allWhite (s : string) : bool :=
  match s with
  | EmptyString => true
  | String c rest => isWhiteSpace c && allWhite rest
  end.

(** A string without white space at either end. *)
Definition trimmed (s : string) : Prop :=
  headClean s = true /\ headClean (rev s) = true.

End TrimTerms.

Section PageRequestsTerms.
Import Js Client.

(** The shorten requests among the requests sent. *)
Definition countShorten (out : list Effect) : nat :=
  length (filter isShorten out).

(** The settled shorten requests among the events. *)
Fixpoint settles (evs : list Event) : nat :=
  match evs with
  | [] => 0
  | ShortenSettled _ _ _ :: rest => S (settles rest)
  | _ :: rest => settles rest
  end.

Definition inFlight (st : State) : nat := if isLoading st then 1 else 0.

End PageRequestsTerms.

Section HandlersTerms.
Import Js Server.

Variable key : value.

Definition callUrl (c : HttpCall) : string :=
  match c with
  | AxiosPost url _ _ _ => url
  | AxiosGet url _ _ => url
  end.

Definition callHeaders (c : HttpCall) : list (string * value) :=
  match c with
  | AxiosPost _ _ headers _ => headers
  | AxiosGet _ headers _ => headers
  end.

(** The [timeout] option of the request, when it sets one. *)
Definition callTimeout (c : HttpCall) : option Z :=
  match c with
  | AxiosPost _ _ _ timeout => Some timeout
  | AxiosGet _ _ timeout => timeout
  end.

(** A request to the provider's API that carries the configured key. *)
Definition toProvider (c : HttpCall) : Prop :=
  String.prefix "https://api.rebrandly.com/v1/" (callUrl c) = true
  /\ assoc "apikey" (callHeaders c) = key.

(** The request that [GET /stats] sends to the provider. *)
Definition statsCall : HttpCall :=
  AxiosGet "https://api.rebrandly.com/v1/account" [("apikey", key)] None.

Definition statsFailure : HttpResponse :=
  json 500 [("success", JBool false);
            ("error", JString "Failed to fetch account stats")].

Definition nullish (v : value) : bool :=
  match v with
  | JUndefined | JNull => true
  | _ => false
  end.

(** The reply of [GET /stats] built from the provider's response. *)
Definition onStats (response : AxiosResponse) : HttpResponse :=
  if nullish (data response) then statsFailure
  else
    json 200
      [("success", JBool true);
       ("stats",
        JObject
          [("linksCreated", or_else (optMember (data response) "linksCreated") (JNumber 0));
           ("linksLimit", or_else (optMember (data response) "linksLimit") (JString "Unlimited"));
           ("clicksTracked", or_else (optMember (data response) "clicksTracked") (JNumber 0))])].

(** The status and the code of every error answer. *)
Definition errorTable : list (Z * string) :=
  [(400, "MISSING_URL"); (400, "INVALID_URL"); (400, "INVALID_SLUG");
   (403, "API_KEY_ERROR"); (422, "VALIDATION_ERROR"); (429, "RATE_LIMIT");
   (408, "TIMEOUT"); (500, "INTERNAL_ERROR")]%Z.

Definition isErrorAnswer (resp : HttpResponse) : Prop :=
  In (statusCode resp,
      match codeOf resp with
      | JString c => c
      | _ => ""
      end) errorTable
  /\ optMember (body resp) "success" = JUndefined
  /\ truthy (errorOf resp) = true.

(** A destination and a slashtag that passed the validation. *)
Definition validated (destination : string) (slashtag : option string) : Prop :=
  destination <> "" /\ trimmed destination
  /\ (exists u, URL.parse destination = Some u)
  /\ match slashtag with
     | None => True
     | Some t =>
         trimmed t /\ Forall inSlugCharset (chars t)
         /\ 3 <= String.length t <= 50
     end.

Definition statField (resp : HttpResponse) (k : string) : value :=
  optMember (optMember (body resp) "stats") k.

End HandlersTerms.

Section EndToEndTerms.
Import Js Server.

(** The body of the request that [shortenUrl] posts:
    [{url: fullUrl, customSlug: slug}], the slug left out when there is
    none. *)
Definition postedBody (fullUrl : string) (slug : option string) : value :=
  requestBody (JString fullUrl) (option_map JString slug).

End EndToEndTerms.

Section DisplayTerms.
Import Js Server.

(** The reply that the page decodes from an answer of the proxy:
    [response.ok], [data.error] when it is a string, [data.success]. *)
Definition reads (resp : HttpResponse) (r : Client.Reply) : Prop :=
  Client.ok r = ((200 <=? statusCode resp) && (statusCode resp <=? 299))%Z
  /\ (forall s, errorOf resp = JString s -> Client.replyError r = Some s)
  /\ Client.success r = truthy (optMember (body resp) "success").

End DisplayTerms.

Section DisplayRunsTerms.
Import Js Server.

Definition forbiddenReply : Client.Reply :=
  {| Client.ok := false;
     Client.replyError := Some "Invalid API key or quota exceeded";
     Client.success := false;
     Client.replyShortUrl := JUndefined;
     Client.replyCustomSlug := JUndefined;
     Client.replyId := JUndefined |}.

End DisplayRunsTerms.

Section ApplicationTerms.
Import Js App.

(** [l.join(", ")] *)
Fixpoint joinOrigins (l : list string) : string :=
  match l with
  | [] => ""
  | [o] => o
  | o :: rest => (o ++ ", " ++ joinOrigins rest)%string
  end.

(** An origin as a list of origins can hold it: trimmed, and without a
    comma. *)
Definition listable (o : string) : Prop :=
  trimmed o /\ ~ In ","%char (chars o).

End ApplicationTerms.

Section SuccessTerms.
Import Js Server.


End SuccessTerms.

Section SuccessRunsTerms.
Import Js Server.


End SuccessRunsTerms.

(** * Properties *)

(** ** Slug validation *)

Lemma existsb_eqb_In (c : ascii) (l : list ascii) :
  existsb (Ascii.eqb c) l = true <-> In c l.
Proof.
  rewrite existsb_exists. split.
  - intros [x [Hin Heq]]. apply Ascii.eqb_eq in Heq. now subst.
  - intros Hin. exists c. split; [assumption | apply Ascii.eqb_refl].
Qed.

Lemma slugClass_charset (c : ascii) :
  SlugRegex.class_matches SlugRegex.slugClass c = existsb (Ascii.eqb c) slugCharset.
Proof.
  destruct c as [[] [] [] [] [] [] [] []]; vm_compute; reflexivity.
Qed.

Lemma all_in_slugClass (s : string) :
  SlugRegex.all_in SlugRegex.slugClass s = true <-> Forall inSlugCharset (chars s).
Proof.
  unfold chars.
  induction s as [| c s IH]; cbn [SlugRegex.all_in list_ascii_of_string].
  - split; [constructor | reflexivity].
  - rewrite andb_true_iff, IH, slugClass_charset, existsb_eqb_In. split.
    + intros [Hc Hs]. now constructor.
    + intros H. inversion H; subst. now split.
Qed.

Lemma slugRegex_test_iff (s : string) :
  SlugRegex.slugRegex_test s = true <-> s <> "" /\ Forall inSlugCharset (chars s).
Proof.
  unfold SlugRegex.slugRegex_test, SlugRegex.test_plus.
  destruct s as [| c s].
  - split; [discriminate | intros [H _]; now elim H].
  - rewrite all_in_slugClass. split; [intros H; split; [discriminate | exact H] | tauto].
Qed.

Lemma isValidSlug_nonempty (s : string) :
  s <> "" ->
  isValidSlug (Some s) = true <->
  Forall inSlugCharset (chars s) /\ 3 <= String.length s <= 50.
Proof.
  intros Hne. unfold isValidSlug. cbn [Js.truthy].
  destruct (String.eqb_spec s "") as [-> | _]; [now elim Hne |].
  cbn [negb].
  rewrite !andb_true_iff, slugRegex_test_iff, !Nat.leb_le.
  intuition.
Qed.

Lemma not_in_charset_rejected (s : string) (c : ascii) :
  In c (chars s) -> ~ inSlugCharset c -> isValidSlug (Some s) = false.
Proof.
  intros Hin Hout.
  destruct (isValidSlug (Some s)) eqn:E; [| reflexivity].
  assert (Hne : s <> "") by (intros ->; inversion Hin).
  apply (isValidSlug_nonempty s Hne) in E. destruct E as [Hall _].
  rewrite Forall_forall in Hall. elim Hout. now apply Hall.
Qed.

(** C5. [isValidSlug] accepts exactly the absent slug, the empty slug,
    and the non-empty strings made of letters, digits, underscore and
    hyphen whose length lies between 3 and 50; so it rejects ["ab"],
    every string of length 51 and every string that contains a space or
    a dot. *)
Theorem isValidSlug_accepts_exactly :
  (forall slug : option string,
      isValidSlug slug = true <->
      slug = None \/ slug = Some "" \/
      exists s, slug = Some s /\ s <> "" /\
                Forall inSlugCharset (chars s) /\ 3 <= String.length s <= 50)
  /\ isValidSlug (Some "ab") = false
  /\ (forall s, String.length s = 51 -> isValidSlug (Some s) = false)
  /\ (forall s, In " "%char (chars s) \/ In "."%char (chars s) ->
                isValidSlug (Some s) = false).
Proof.
  split; [| split; [reflexivity | split]].
  - intros [s |]; [| split; [now left | reflexivity]].
    destruct (string_dec s "") as [-> | Hne].
    + split; [now right; left | reflexivity].
    + rewrite (isValidSlug_nonempty s Hne). split.
      * intros H. right; right. exists s. tauto.
      * intros [H | [H | [s' [H1 [_ H2]]]]]; try discriminate.
        -- injection H as ->. now elim Hne.
        -- injection H1 as ->. exact H2.
  - intros s Hlen.
    destruct (isValidSlug (Some s)) eqn:E; [| reflexivity].
    assert (Hne : s <> "") by (intros ->; discriminate).
    apply (isValidSlug_nonempty s Hne) in E. lia.
  - intros s [H | H]; eapply not_in_charset_rejected; try exact H;
      unfold inSlugCharset, slugCharset; simpl;
      intros Hin; repeat (destruct Hin as [Hin | Hin]; [discriminate Hin |]);
      exact Hin.
Qed.

(** ** [JSON.parse] and its fuel *)

Section JsonFuel.
Import Js JSON.

Lemma dropWhile_length (p : ascii -> bool) (s : string) :
  String.length (URL.dropWhile p s) <= String.length s.
Proof.
  induction s as [| c s IH]; cbn [URL.dropWhile String.length]; [lia |].
  destruct (p c); cbn [String.length]; lia.
Qed.

Lemma span_length (stop : ascii -> bool) (s a b : string) :
  URL.span stop s = (a, b) ->
  String.length s = String.length a + String.length b.
Proof.
  revert a b. induction s as [| c s IH]; intros a b H; cbn [URL.span] in H.
  - injection H as <- <-. reflexivity.
  - destruct (stop c).
    + injection H as <- <-. reflexivity.
    + destruct (URL.span stop s) as [a' b'] eqn:E. injection H as <- <-.
      cbn [String.length]. rewrite (IH a' b' eq_refl). lia.
Qed.

Lemma stripPrefix_length (lit s rest : string) :
  stripPrefix lit s = Some rest ->
  String.length s = String.length lit + String.length rest.
Proof.
  revert s. induction lit as [| a lit IH]; intros s H; cbn [stripPrefix] in H.
  - injection H as ->. reflexivity.
  - destruct s as [| b s]; [discriminate |].
    destruct (Ascii.eqb a b); [| discriminate].
    cbn [String.length]. rewrite (IH s H). lia.
Qed.

Lemma hex4_length (n : nat) (acc x : N) (s rest : string) :
  hex4 n acc s = Some (x, rest) -> String.length s = n + String.length rest.
Proof.
  revert acc s. induction n as [| n IH]; intros acc s H; cbn [hex4] in H.
  - injection H as _ ->. reflexivity.
  - destruct s as [| c s]; [discriminate |].
    destruct (URL.isHexDigit c); [| discriminate].
    cbn [String.length]. rewrite (IH _ _ H). lia.
Qed.

Lemma parseChars_length (fuel : nat) (acc s str rest : string) :
  parseChars fuel acc s = Some (str, rest) ->
  String.length rest < String.length s.
Proof.
  revert acc s. induction fuel as [| fuel IH]; intros acc s H; [discriminate |].
  cbn [parseChars] in H.
  destruct s as [| c s]; [discriminate |]. cbn [String.length].
  destruct (URL.isChar dquote c).
  { injection H as _ <-. lia. }
  destruct (URL.isChar "\" c).
  - destruct s as [| e s]; [discriminate |]. cbn [String.length].
    repeat match type of H with
           | (if ?b then _ else _) = _ =>
               destruct b; [try (apply IH in H; lia) |]
           end; try discriminate.
    destruct (hex4 4 0 s) as [[n rest'] |] eqn:Ehex; [| discriminate].
    apply hex4_length in Ehex. apply IH in H. lia.
  - destruct (code c <? 32)%N; [discriminate |].
    apply IH in H. lia.
Qed.

Lemma parseFraction_length (s frac rest : string) :
  parseFraction s = Some (frac, rest) -> String.length rest <= String.length s.
Proof.
  unfold parseFraction, digits. intros H.
  destruct s as [| c s]; [injection H as _ <-; lia |].
  destruct (URL.isChar "." c).
  - destruct (URL.span _ s) as [f s'] eqn:E.
    destruct (f =? ""); [discriminate |]. injection H as _ <-.
    apply span_length in E. cbn [String.length]. lia.
  - injection H as _ <-. lia.
Qed.

Lemma sign_length (plusAllowed neg : bool) (s rest : string) :
  sign plusAllowed s = (neg, rest) -> String.length rest <= String.length s.
Proof.
  unfold sign. intros H.
  destruct s as [| g r]; [injection H as _ <-; lia |].
  destruct (URL.isChar "-" g); [injection H as _ <-; cbn; lia |].
  destruct (plusAllowed && URL.isChar "+" g); injection H as _ <-; cbn; lia.
Qed.

Lemma parseExponent_length (s ex rest : string) (expNeg : bool) :
  parseExponent s = Some (expNeg, ex, rest) ->
  String.length rest <= String.length s.
Proof.
  unfold parseExponent, digits. intros H.
  destruct s as [| c s]; [injection H as _ _ <-; lia |].
  destruct (URL.isChar "e" c || URL.isChar "E" c).
  - destruct (sign true s) as [b rest1] eqn:Es.
    apply sign_length in Es.
    destruct (URL.span _ rest1) as [e s'] eqn:E.
    destruct (e =? ""); [discriminate |]. injection H as _ _ <-.
    apply span_length in E. cbn [String.length]. lia.
  - injection H as _ _ <-. lia.
Qed.

Lemma parseNumber_length (s rest : string) (v : value) :
  parseNumber s = Some (v, rest) -> String.length rest < String.length s.
Proof.
  unfold parseNumber, digits. intros H.
  destruct (sign false s) as [neg s1] eqn:Es.
  apply sign_length in Es.
  destruct (URL.span _ s1) as [int s2] eqn:E.
  apply span_length in E.
  destruct int as [| d int]; [discriminate |].
  destruct (negb _); [discriminate |].
  destruct (parseFraction s2) as [[frac s3] |] eqn:Ef; [| discriminate].
  destruct (parseExponent s3) as [[[expNeg ex] s4] |] eqn:Ee; [| discriminate].
  injection H as _ <-.
  apply parseFraction_length in Ef. apply parseExponent_length in Ee.
  cbn [String.length] in E. lia.
Qed.

Lemma skipWs_length (s : string) (c : ascii) (rest : string) :
  skipWs s = String c rest -> S (String.length rest) <= String.length s.
Proof.
  intros H. pose proof (dropWhile_length isWs s) as Hle.
  fold skipWs in Hle. rewrite H in Hle. exact Hle.
Qed.

Lemma parseString_length (s str rest : string) :
  parseString s = Some (str, rest) -> String.length rest < String.length s.
Proof. apply parseChars_length. Qed.

Lemma expect_length (lit s rest : string) (v v' : value) :
  expect lit v s = Some (v', rest) ->
  String.length s = String.length lit + String.length rest.
Proof.
  unfold expect. destruct (stripPrefix lit s) as [r |] eqn:E; [| discriminate].
  intros H. injection H as _ <-. now apply stripPrefix_length.
Qed.

(** Every parser consumes at least one character. *)
Lemma parse_consumes (fuel : nat) :
  (forall s v rest, parseValue fuel s = Some (v, rest) ->
                    String.length rest < String.length s)
  /\ (forall acc s v rest, parseElements fuel acc s = Some (v, rest) ->
                           String.length rest < String.length s)
  /\ (forall acc s v rest, parseMembers fuel acc s = Some (v, rest) ->
                           String.length rest < String.length s).
Proof.
  induction fuel as [| fuel [IHv [IHe IHm]]].
  - repeat split; intros; discriminate.
  - split; [| split].
    + intros s v rest H. cbn [parseValue] in H.
      destruct (skipWs s) as [| c s1] eqn:Es; [discriminate |].
      apply skipWs_length in Es.
      destruct (URL.isChar "{" c).
      { destruct (skipWs s1) as [| d rest'] eqn:Es1; [discriminate |].
        apply skipWs_length in Es1.
        destruct (URL.isChar "}" d); [injection H as _ <-; lia |].
        apply IHm in H. lia. }
      destruct (URL.isChar "[" c).
      { destruct (skipWs s1) as [| d rest'] eqn:Es1; [discriminate |].
        apply skipWs_length in Es1.
        destruct (URL.isChar "]" d); [injection H as _ <-; lia |].
        apply IHe in H. lia. }
      destruct (URL.isChar dquote c).
      { destruct (parseString s1) as [[str rest'] |] eqn:Ep; [| discriminate].
        apply parseString_length in Ep. injection H as _ <-. lia. }
      destruct (URL.isChar "t" c);
        [apply expect_length in H; cbn [String.length] in H; lia |].
      destruct (URL.isChar "f" c);
        [apply expect_length in H; cbn [String.length] in H; lia |].
      destruct (URL.isChar "n" c);
        [apply expect_length in H; cbn [String.length] in H; lia |].
      apply parseNumber_length in H. cbn [String.length] in H. lia.
    + intros acc s v rest H. cbn [parseElements] in H.
      destruct (parseValue fuel s) as [[x r] |] eqn:Ev; [| discriminate].
      apply IHv in Ev.
      destruct (skipWs r) as [| c r'] eqn:Er; [discriminate |].
      apply skipWs_length in Er.
      destruct (URL.isChar "," c); [apply IHe in H; lia |].
      destruct (URL.isChar "]" c); [injection H as _ <-; lia | discriminate].
    + intros acc s v rest H. cbn [parseMembers] in H.
      destruct (skipWs s) as [| q r] eqn:Es; [discriminate |].
      apply skipWs_length in Es.
      destruct (URL.isChar dquote q); [| discriminate].
      destruct (parseString r) as [[k r1] |] eqn:Ek; [| discriminate].
      apply parseString_length in Ek.
      destruct (skipWs r1) as [| c r2] eqn:Er1; [discriminate |].
      apply skipWs_length in Er1.
      destruct (URL.isChar ":" c); [| discriminate].
      destruct (parseValue fuel r2) as [[x r3] |] eqn:Ev; [| discriminate].
      apply IHv in Ev.
      destruct (skipWs r3) as [| d r4] eqn:Er3; [discriminate |].
      apply skipWs_length in Er3.
      destruct (URL.isChar "," d); [apply IHm in H; lia |].
      destruct (URL.isChar "}" d); [injection H as _ <-; lia | discriminate].
Qed.

(** Beyond twice the length of the text, more fuel changes nothing. *)
Lemma parse_fuel (f1 : nat) :
  (forall f2 s, 2 * String.length s + 1 <= f1 -> 2 * String.length s + 1 <= f2 ->
                parseValue f1 s = parseValue f2 s)
  /\ (forall f2 acc s,
        2 * String.length s + 2 <= f1 -> 2 * String.length s + 2 <= f2 ->
        parseElements f1 acc s = parseElements f2 acc s)
  /\ (forall f2 acc s,
        2 * String.length s + 2 <= f1 -> 2 * String.length s + 2 <= f2 ->
        parseMembers f1 acc s = parseMembers f2 acc s).
Proof.
  induction f1 as [| f1 [IHv [IHe IHm]]].
  - repeat split; intros; lia.
  - split; [| split].
    + intros [| f2] s H1 H2; [lia |]. cbn [parseValue].
      destruct (skipWs s) as [| c s1] eqn:Es; [reflexivity |].
      apply skipWs_length in Es.
      destruct (URL.isChar "{" c).
      { destruct (skipWs s1) as [| d rest'] eqn:Es1; [reflexivity |].
        destruct (URL.isChar "}" d); [reflexivity | apply IHm; lia]. }
      destruct (URL.isChar "[" c); [| reflexivity].
      destruct (skipWs s1) as [| d rest'] eqn:Es1; [reflexivity |].
      destruct (URL.isChar "]" d); [reflexivity | apply IHe; lia].
    + intros [| f2] acc s H1 H2; [lia |]. cbn [parseElements].
      rewrite (IHv f2 s) by lia.
      destruct (parseValue f2 s) as [[x r] |] eqn:Ev; [| reflexivity].
      apply (proj1 (parse_consumes f2)) in Ev.
      destruct (skipWs r) as [| c r'] eqn:Er; [reflexivity |].
      apply skipWs_length in Er.
      destruct (URL.isChar "," c); [apply IHe; lia | reflexivity].
    + intros [| f2] acc s H1 H2; [lia |]. cbn [parseMembers].
      destruct (skipWs s) as [| q r] eqn:Es; [reflexivity |].
      apply skipWs_length in Es.
      destruct (URL.isChar dquote q); [| reflexivity].
      destruct (parseString r) as [[k r1] |] eqn:Ek; [| reflexivity].
      apply parseString_length in Ek.
      destruct (skipWs r1) as [| c r2] eqn:Er1; [reflexivity |].
      apply skipWs_length in Er1.
      destruct (URL.isChar ":" c); [| reflexivity].
      rewrite (IHv f2 r2) by lia.
      destruct (parseValue f2 r2) as [[x r3] |] eqn:Ev; [| reflexivity].
      apply (proj1 (parse_consumes f2)) in Ev.
      destruct (skipWs r3) as [| d r4] eqn:Er3; [reflexivity |].
      apply skipWs_length in Er3.
      destruct (URL.isChar "," d); [apply IHm; lia | reflexivity].
Qed.

(** The characters of a string literal need no more fuel than their
    number. *)
Lemma parseChars_fuel (f1 : nat) :
  forall f2 acc s,
    String.length s <= f1 -> String.length s <= f2 ->
    parseChars f1 acc s = parseChars f2 acc s.
Proof.
  induction f1 as [| f1 IH]; intros f2 acc s H1 H2.
  - destruct s; [| cbn in H1; lia]. destruct f2; reflexivity.
  - destruct f2 as [| f2].
    + destruct s; [reflexivity | cbn in H2; lia].
    + cbn [parseChars].
      destruct s as [| c s]; [reflexivity |]. cbn [String.length] in *.
      destruct (URL.isChar dquote c); [reflexivity |].
      destruct (URL.isChar "\" c).
      * destruct s as [| e s]; [reflexivity |]. cbn [String.length] in *.
        repeat match goal with
               | |- (if ?b then _ else _) = _ =>
                   destruct b; [apply IH; lia |]
               end.
        destruct (URL.isChar "u" e); [| reflexivity].
        destruct (hex4 4 0 s) as [[n rest'] |] eqn:Ehex; [| reflexivity].
        apply hex4_length in Ehex. apply IH; lia.
      * destruct (code c <? 32)%N; [reflexivity | apply IH; lia].
Qed.

(** [JSON.parse] never fails for lack of fuel: any larger amount gives
    the same result. *)
Theorem parse_fuel_independent (text : string) (fuel : nat) :
  2 * String.length text + 2 <= fuel ->
  JSON.parse text
  = match parseValue fuel text with
    | Some (v, rest) => if skipWs rest =? "" then Some v else None
    | None => None
    end.
Proof.
  intros H. unfold JSON.parse.
  rewrite (proj1 (parse_fuel (2 * String.length text + 2)) fuel text) by lia.
  reflexivity.
Qed.

End JsonFuel.

(** ** The history list *)

Section History.
Import Client.

Lemma record_length (e : HistoryEntry) (h : list HistoryEntry) :
  length (record e h) <= 10.
Proof.
  unfold record, Js.slice0. cbn [length].
  pose proof (firstn_le_length 9 h). lia.
Qed.

Lemma firstn_through_record {A} (l : list A) (e : A) (h : list A) :
  firstn 10 (l ++ e :: firstn 9 h) = firstn 10 (l ++ e :: h).
Proof.
  rewrite !firstn_app. f_equal.
  destruct (10 - length l) as [| k] eqn:E; [reflexivity |].
  rewrite !firstn_cons, firstn_firstn.
  replace (Nat.min k 9) with k by lia. reflexivity.
Qed.

(** Recording a sequence of entries keeps the ten most recent ones,
    the last recorded first. *)
Lemma record_sequence (e : HistoryEntry) (es h : list HistoryEntry) :
  fold_left (fun prev x => record x prev) (e :: es) h
  = firstn 10 (rev (e :: es) ++ h).
Proof.
  revert e h. induction es as [| e' es IH]; intros e h.
  - reflexivity.
  - change (fold_left (fun prev x => record x prev) (e :: e' :: es) h)
      with (fold_left (fun prev x => record x prev) (e' :: es) (record e h)).
    rewrite IH. unfold record, Js.slice0.
    rewrite firstn_through_record.
    change (rev (e :: e' :: es)) with (rev (e' :: es) ++ [e]).
    now rewrite <- app_assoc.
Qed.

Lemma shortenUrl_history (st : State) :
  urlHistory (fst (shortenUrl st)) = urlHistory st.
Proof.
  unfold shortenUrl.
  repeat match goal with
         | |- context [if ?b then _ else _] => destruct b
         end; reflexivity.
Qed.

Lemma dispatch_history (st : State) (ev : Event) :
  urlHistory (fst (dispatch st ev)) = historyAfter (urlHistory st) ev.
Proof.
  destruct ev; cbn [dispatch historyAfter]; unfold handleKeyPress;
    try reflexivity;
    try (destruct (inputDisabled st); [reflexivity |]);
    try reflexivity.
  - destruct ((key =? "Enter") && negb (isLoading st));
      [apply shortenUrl_history | reflexivity].
  - destruct (buttonDisabled st); [reflexivity | apply shortenUrl_history].
  - destruct (apiStatus st); reflexivity.
  - destruct dataSuccess as [[|] |]; reflexivity.
  - destruct outcome as [m | r]; [reflexivity |].
    unfold shortenSettled, creates.
    destruct (ok r), (success r); reflexivity.
Qed.

Lemma run_cons (st : State) (ev : Event) (evs : list Event) :
  fst (run st (ev :: evs)) = fst (run (fst (dispatch st ev)) evs).
Proof.
  simpl. destruct (dispatch st ev) as [st1 out1]. simpl.
  now destruct (run st1 evs).
Qed.

Lemma historyAfter_length (h : list HistoryEntry) (ev : Event) :
  length h <= 10 -> length (historyAfter h ev) <= 10.
Proof.
  intros Hle. destruct ev; cbn [historyAfter]; try assumption.
  - unfold deleteFromHistory.
    pose proof (filter_length_le (fun item => negb (id item =? rid)%Z) h). lia.
  - cbn [length]. lia.
  - destruct outcome as [m | r]; [assumption |].
    destruct (creates (Responded r)); [apply record_length | assumption].
Qed.

Lemma run_history_length (evs : list Event) (st : State) :
  length (urlHistory st) <= 10 ->
  length (urlHistory (fst (run st evs))) <= 10.
Proof.
  revert st. induction evs as [| ev evs IH]; intros st Hle.
  - exact Hle.
  - rewrite run_cons. apply IH. rewrite dispatch_history.
    now apply historyAfter_length.
Qed.

(** C3. The history holds at most ten entries, newest first: [record]
    returns at most ten entries; recording a sequence of entries
    leaves the ten most recent ones, the last recorded first;
    recording eleven entries leaves the last ten and drops the first;
    and no event of the page lets a history of at most ten entries
    grow beyond ten. *)
Theorem history_capped_newest_first :
  (forall e h, length (record e h) <= 10)
  /\ (forall e es h,
        fold_left (fun prev x => record x prev) (e :: es) h
        = firstn 10 (rev (e :: es) ++ h))
  /\ (forall e1 e2 e3 e4 e5 e6 e7 e8 e9 e10 e11 h,
        fold_left (fun prev x => record x prev)
          [e1; e2; e3; e4; e5; e6; e7; e8; e9; e10; e11] h
        = [e11; e10; e9; e8; e7; e6; e5; e4; e3; e2])
  /\ (forall saved evs,
        length saved <= 10 ->
        length (urlHistory (fst (run (initial saved) evs))) <= 10).
Proof.
  split; [exact record_length | split; [exact record_sequence | split]].
  - intros. rewrite record_sequence. reflexivity.
  - intros saved evs Hle. now apply run_history_length.
Qed.

(** An eleventh recorded entry evicts the oldest one. *)
Lemma history_capped_newest_first_witness :
  length
    (urlHistory
       (fst (run (initial [])
               (map (fun n => ShortenSettled "https://example.com/"
                                (Responded exampleReply) (Z.of_nat n))
                  (seq 1 11)))))
  <= 10.
Proof.
  apply (proj2 (proj2 (proj2 history_capped_newest_first))).
  simpl. lia.
Defined.

(** *** Identifiers *)




Lemma incl_firstn {A} (n : nat) (l : list A) : incl (firstn n l) l.
Proof.
  intros a Ha. rewrite <- (firstn_skipn n l). apply in_or_app. now left.
Qed.







End History.

(** ** The shorten proxy and the credential probe *)

Section Proxy.
Import Js Server.

Variable key : value.
Variable rebrandly : Log -> HttpCall -> Error + AxiosResponse.

Abbreviation shorten := (Server.shorten key rebrandly).
Abbreviation test := (Server.test key rebrandly).

Ltac run_handler :=
  cbv beta iota zeta delta
    [Server.shorten shortenTry shortenWith tryCatch bind ret throw getMember
     urlMissing slugInvalid slugProvided callTrim axios_post axios truthy negb
     Z.eqb].

Ltac finish_forward :=
  unfold runVerdict, linksCall, onResponse; cbn [app];
  change (REBRANDLY_BASE_URL ++ "/links")%string
    with "https://api.rebrandly.com/v1/links";
  destruct (rebrandly _ _) as [e | response]; [reflexivity |];
  destruct (data response); reflexivity.

(** The handler is its verdict, followed by at most one request. *)
Lemma shorten_run (req_body : value) (log : Log) :
  shorten req_body log = runVerdict key rebrandly (verdict req_body) log.
Proof.
  unfold verdict.
  assert (Hfields : forall url customSlug,
             tryCatch (shortenWith key rebrandly url customSlug)
               (fun error => ret (shortenCatch error)) log
             = runVerdict key rebrandly (fieldsVerdict url customSlug) log).
  { intros url customSlug.
    unfold fieldsVerdict, slugVerdict.
    destruct url as [| | b | n | m ex | u | items | fields];
      try (destruct b); try (destruct n); try (destruct m); try reflexivity.
    run_handler.
    destruct (u =? "") eqn:Eu.
    { apply String.eqb_eq in Eu. subst u. reflexivity. }
    run_handler. destruct (trim u =? "") eqn:Et; [reflexivity |].
    run_handler. destruct (isValidUrl (trim u)); [| reflexivity].
    run_handler.
    destruct customSlug as [| | b | n | m ex | s | items | fields];
      try (destruct b); try (destruct n); try (destruct m);
      try reflexivity; run_handler; try finish_forward.
    destruct (s =? "") eqn:Es; run_handler; [finish_forward |].
    destruct (isValidSlug (Some (trim s))); run_handler; [| reflexivity].
    destruct (trim s =? ""); run_handler; finish_forward. }
  destruct req_body; try reflexivity;
    unfold Server.shorten, shortenTry;
    match goal with
    | |- tryCatch (bind (getMember ?b _) _) _ _ = _ =>
        exact (Hfields (optMember b "url") (optMember b "customSlug"))
    end.
Qed.

(** The credential probe is one request, answered either way. *)
Lemma test_run (log : Log) :
  test log
  = (inr match rebrandly log (accountCall key) with
         | inl e => testCatch e
         | inr response => onAccount response
         end,
     log ++ [(accountCall key)]).
Proof.
  unfold Server.test, tryCatch, bind, axios_get, axios, accountCall, onAccount.
  change (REBRANDLY_BASE_URL ++ "/account")%string
    with "https://api.rebrandly.com/v1/account".
  destruct (rebrandly log _) as [e | response]; [reflexivity |].
  unfold getMember, ret, throw.
  destruct (data response); reflexivity.
Qed.

(** *** Codes *)

Lemma shortenCatch_not_validation (e : Error) :
  isValidationCode (codeOf (shortenCatch e)) = false.
Proof.
  unfold shortenCatch.
  destruct (statusIs e 403); [reflexivity |].
  destruct (statusIs e 422); [reflexivity |].
  destruct (statusIs e 429); [reflexivity |].
  destruct (codeIs e "ECONNABORTED"); reflexivity.
Qed.

Lemma onResponse_not_validation (u : string) (response : AxiosResponse) :
  isValidationCode (codeOf (onResponse u response)) = false.
Proof.
  unfold onResponse.
  destruct (data response); try apply shortenCatch_not_validation; reflexivity.
Qed.

Lemma forward_not_validation (d : string) (sl : option string) (log : Log) :
  forall resp, fst (runVerdict key rebrandly (Forward d sl) log) = inr resp ->
               isValidationCode (codeOf resp) = false.
Proof.
  intros resp H. cbn [runVerdict fst] in H. injection H as <-.
  destruct (rebrandly log _);
    [apply shortenCatch_not_validation | apply onResponse_not_validation].
Qed.

(** *** Request bodies *)

Lemma verdict_requestBody (url : value) (customSlug : option value) :
  verdict (requestBody url customSlug) = fieldsVerdict url (slugField customSlug).
Proof. destruct customSlug; reflexivity. Qed.

Lemma wellTyped_answer (req_body : value) (resp : HttpResponse) :
  wellTyped req_body = true ->
  verdict req_body = Answer resp ->
  isValidationCode (codeOf resp) = true.
Proof.
  destruct req_body; try discriminate.
  unfold wellTyped, verdict.
  generalize (optMember (JObject fields) "url") as url.
  generalize (optMember (JObject fields) "customSlug") as customSlug.
  intros customSlug url Hty.
  apply andb_true_iff in Hty. destruct Hty as [Hu Hs].
  unfold fieldsVerdict, slugVerdict.
  destruct url as [| | b | n | m ex | u | items | fs]; try discriminate;
    cbn [truthy]; try (intros H; injection H as <-; reflexivity).
  destruct (trim u =? ""); [intros H; injection H as <-; reflexivity |].
  destruct (isValidUrl (trim u)); [| intros H; injection H as <-; reflexivity].
  destruct customSlug as [| | b | n | m ex | s | items | fs]; try discriminate;
    cbn [truthy]; try discriminate.
  destruct (s =? ""); [discriminate |].
  destruct (isValidSlug (Some (trim s))); [discriminate |].
  intros H; injection H as <-; reflexivity.
Qed.

Lemma wellTyped_not_misTyped (req_body : value) :
  wellTyped req_body = true -> misTyped req_body = false.
Proof.
  destruct req_body; try discriminate.
  unfold wellTyped, misTyped.
  generalize (optMember (JObject fields) "url") as url.
  generalize (optMember (JObject fields) "customSlug") as customSlug.
  intros customSlug url Hty.
  apply andb_true_iff in Hty. destruct Hty as [Hu Hs].
  destruct url; try discriminate; destruct customSlug; try discriminate;
    reflexivity.
Qed.

(** With string, falsy or absent fields every answer given before the
    request is one of the three validation answers. *)
Lemma fieldsVerdict_typed (url customSlug : value) (resp : HttpResponse) :
  truthyNonString url || truthyNonString customSlug = false ->
  fieldsVerdict url customSlug = Answer resp ->
  isValidationCode (codeOf resp) = true.
Proof.
  intros Hty. apply orb_false_iff in Hty. destruct Hty as [Hu Hs].
  unfold fieldsVerdict, slugVerdict.
  destruct url as [| | b | n | m ex | u | items | fs];
    cbn [truthyNonString] in Hu; rewrite ?Hu;
    try (intros H; injection H as <-; reflexivity).
  destruct (trim u =? ""); [intros H; injection H as <-; reflexivity |].
  destruct (isValidUrl (trim u)); [| intros H; injection H as <-; reflexivity].
  destruct customSlug as [| | b | n | m ex | s | items | fs];
    cbn [truthyNonString] in Hs; rewrite ?Hs; try discriminate.
  destruct (s =? ""); [discriminate |].
  destruct (isValidSlug (Some (trim s))); [discriminate |].
  intros H; injection H as <-; reflexivity.
Qed.

(** With a truthy field that is not a string the handler never reaches
    the request: either validation has already failed, or [.trim()]
    throws and the [catch] block answers 500. *)
Lemma fieldsVerdict_misTyped (url customSlug : value) :
  truthyNonString url || truthyNonString customSlug = true ->
  exists resp,
    fieldsVerdict url customSlug = Answer resp
    /\ (isValidationCode (codeOf resp) = true \/ resp = internalError).
Proof.
  intros Hty. unfold fieldsVerdict, slugVerdict.
  destruct url as [| | b | n | m ex | u | items | fs];
    cbn beta iota;
    try (match goal with
         | |- context [if truthy ?v then _ else _] => destruct (truthy v)
         end;
         (eexists; split; [reflexivity | first [left; reflexivity | right; reflexivity]])).
  cbn [truthyNonString orb] in Hty.
  destruct (trim u =? ""); [eexists; split; [reflexivity | left; reflexivity] |].
  destruct (isValidUrl (trim u)); [| eexists; split; [reflexivity | left; reflexivity]].
  destruct customSlug as [| | b | n | m ex | s | items | fs];
    cbn [truthyNonString] in Hty; try discriminate; rewrite Hty;
    (eexists; split; [reflexivity | right; reflexivity]).
Qed.

Lemma verdict_typed (req_body : value) (resp : HttpResponse) :
  misTyped req_body = false ->
  verdict req_body = Answer resp ->
  isValidationCode (codeOf resp) = true.
Proof.
  destruct req_body; cbn [misTyped verdict]; try discriminate;
    apply fieldsVerdict_typed.
Qed.

Lemma verdict_misTyped (req_body : value) :
  misTyped req_body = true ->
  exists resp,
    verdict req_body = Answer resp
    /\ (isValidationCode (codeOf resp) = true \/ resp = internalError).
Proof.
  destruct req_body; cbn [misTyped verdict];
    try apply fieldsVerdict_misTyped;
    intros _; eexists; (split; [reflexivity | right; reflexivity]).
Qed.

(** C6. Whatever the request body and whatever the provider does, the
    handler answers and sends at most one request to the provider (a
    provider failure, a timeout included, is not followed by a second
    request).  It sends none when it answers [MISSING_URL],
    [INVALID_URL] or [INVALID_SLUG].  It also sends none when the body
    is absent or its [url] or [customSlug] is a truthy value that is
    not a string: then, unless validation has already failed, [.trim()]
    throws and the answer is 500 [INTERNAL_ERROR].  For every other
    body, the bodies of the documented type among them, an answer other
    than the three validation answers comes after exactly one
    request. *)
Theorem shorten_sends_at_most_one_request :
  forall req_body log,
  exists resp calls,
    shorten req_body log = (inr resp, log ++ calls)
    /\ length calls <= 1
    /\ (isValidationCode (codeOf resp) = true -> calls = [])
    /\ (misTyped req_body = true ->
        calls = []
        /\ (isValidationCode (codeOf resp) = true \/ resp = internalError))
    /\ (misTyped req_body = false ->
        isValidationCode (codeOf resp) = false -> length calls = 1)
    /\ (wellTyped req_body = true ->
        isValidationCode (codeOf resp) = false -> length calls = 1).
Proof.
  intros req_body log. rewrite shorten_run.
  destruct (verdict req_body) as [resp | d sl] eqn:V.
  - exists resp, []. cbn [runVerdict]. rewrite app_nil_r.
    assert (Hone : misTyped req_body = false ->
                   isValidationCode (codeOf resp) = false -> length (@nil HttpCall) = 1).
    { intros Hty Hcode. rewrite (verdict_typed _ _ Hty V) in Hcode. discriminate. }
    split; [reflexivity | split; [cbn; lia | split; [reflexivity |]]].
    split; [| split; [exact Hone |]].
    + intros Hty. split; [reflexivity |].
      destruct (verdict_misTyped _ Hty) as [r [Hr Hcases]].
      rewrite V in Hr. injection Hr as <-. exact Hcases.
    + intros Hty. apply Hone. now apply wellTyped_not_misTyped.
  - eexists. exists [linksCall key d sl]. cbn [runVerdict].
    split; [reflexivity | split; [cbn; lia | split; [| split; [| split; reflexivity]]]].
    + intros Hcode.
      rewrite (forward_not_validation d sl log _ eq_refl) in Hcode. discriminate.
    + intros Hty. destruct (verdict_misTyped _ Hty) as [r [Hr _]].
      rewrite V in Hr. discriminate.
Qed.

(** *** Provider failures *)

Lemma statusIs_iff (e : Error) (n : Z) :
  statusIs e n = true <-> responseStatus e = Some n.
Proof.
  unfold statusIs. destruct (responseStatus e) as [m |].
  - rewrite Z.eqb_eq. split; [now intros -> | intros H; now injection H].
  - split; discriminate.
Qed.

Lemma statusIs_false (e : Error) (n : Z) :
  responseStatus e <> Some n -> statusIs e n = false.
Proof.
  intros H. destruct (statusIs e n) eqn:E; [| reflexivity].
  apply statusIs_iff in E. contradiction.
Qed.

Lemma codeIs_iff (e : Error) (c : string) :
  codeIs e c = true <-> code e = JString c.
Proof.
  unfold codeIs. destruct (code e); try (split; discriminate).
  rewrite String.eqb_eq. split; [now intros -> | intros H; now injection H].
Qed.

Lemma shortenCatch_mapping (e : Error) :
  (responseStatus e = Some 403%Z ->
   statusCode (shortenCatch e) = 403%Z
   /\ codeOf (shortenCatch e) = JString "API_KEY_ERROR")
  /\ (responseStatus e = Some 422%Z ->
      statusCode (shortenCatch e) = 422%Z
      /\ codeOf (shortenCatch e) = JString "VALIDATION_ERROR"
      /\ errorOf (shortenCatch e)
         = (if truthy (firstFieldMessage e) then firstFieldMessage e
            else JString "Invalid URL or custom slug already exists"))
  /\ (responseStatus e = Some 429%Z ->
      statusCode (shortenCatch e) = 429%Z
      /\ codeOf (shortenCatch e) = JString "RATE_LIMIT")
  /\ (plainStatus e -> code e = JString "ECONNABORTED" ->
      statusCode (shortenCatch e) = 408%Z
      /\ codeOf (shortenCatch e) = JString "TIMEOUT")
  /\ (plainStatus e -> code e <> JString "ECONNABORTED" ->
      statusCode (shortenCatch e) = 500%Z
      /\ codeOf (shortenCatch e) = JString "INTERNAL_ERROR").
Proof.
  unfold shortenCatch.
  split; [| split; [| split; [| split]]].
  - intros H. rewrite (proj2 (statusIs_iff e 403) H). now split.
  - intros H.
    rewrite (statusIs_false e 403) by (rewrite H; discriminate).
    rewrite (proj2 (statusIs_iff e 422) H). repeat split; reflexivity.
  - intros H.
    rewrite (statusIs_false e 403) by (rewrite H; discriminate).
    rewrite (statusIs_false e 422) by (rewrite H; discriminate).
    rewrite (proj2 (statusIs_iff e 429) H). now split.
  - intros [H403 [H422 H429]] Hcode.
    rewrite (statusIs_false e 403 H403), (statusIs_false e 422 H422),
      (statusIs_false e 429 H429), (proj2 (codeIs_iff e _) Hcode).
    now split.
  - intros [H403 [H422 H429]] Hcode.
    rewrite (statusIs_false e 403 H403), (statusIs_false e 422 H422),
      (statusIs_false e 429 H429).
    destruct (codeIs e "ECONNABORTED") eqn:E; [| now split].
    apply codeIs_iff in E. contradiction.
Qed.

(** C2. When the request that the handler sent is failed by the
    provider, the answer is the one local error that corresponds to the
    failure: 403 gives 403 [API_KEY_ERROR]; 422 gives 422
    [VALIDATION_ERROR] with the first field-error message of the
    provider when it has one (a truthy value) and the generic text
    otherwise; 429 gives 429 [RATE_LIMIT]; a timeout ([ECONNABORTED]
    with none of these statuses) gives 408 [TIMEOUT]; any other failure
    gives 500 [INTERNAL_ERROR]. *)
Theorem shorten_maps_provider_failure :
  forall req_body log call e,
    snd (shorten req_body log) = log ++ [call] ->
    rebrandly log call = inl e ->
    exists resp,
      fst (shorten req_body log) = inr resp
      /\ (responseStatus e = Some 403%Z ->
          statusCode resp = 403%Z /\ codeOf resp = JString "API_KEY_ERROR")
      /\ (responseStatus e = Some 422%Z ->
          statusCode resp = 422%Z /\ codeOf resp = JString "VALIDATION_ERROR"
          /\ errorOf resp
             = (if truthy (firstFieldMessage e) then firstFieldMessage e
                else JString "Invalid URL or custom slug already exists"))
      /\ (responseStatus e = Some 429%Z ->
          statusCode resp = 429%Z /\ codeOf resp = JString "RATE_LIMIT")
      /\ (plainStatus e -> code e = JString "ECONNABORTED" ->
          statusCode resp = 408%Z /\ codeOf resp = JString "TIMEOUT")
      /\ (plainStatus e -> code e <> JString "ECONNABORTED" ->
          statusCode resp = 500%Z /\ codeOf resp = JString "INTERNAL_ERROR").
Proof.
  intros req_body log call e Hlog Hfail.
  rewrite shorten_run in *.
  destruct (verdict req_body) as [resp | d sl]; cbn [runVerdict fst snd] in *.
  - rewrite <- (app_nil_r log) in Hlog at 1.
    apply app_inv_head in Hlog. discriminate.
  - apply app_inv_head in Hlog. injection Hlog as Hcall.
    rewrite Hcall, Hfail.
    exists (shortenCatch e). split; [reflexivity | apply shortenCatch_mapping].
Qed.

(** C9. When the provider fails the probe, the answer carries
    [success: false], the code [INVALID_API_KEY] exactly when the
    provider responded with status 403 and [TEST_FAILED] in every other
    case, and the provider's error (its response data, or else its
    message) under [details]. *)
Theorem test_failure_code :
  forall log e,
    rebrandly log (accountCall key) = inl e ->
    exists resp,
      test log = (inr resp, log ++ [(accountCall key)])
      /\ statusCode resp = 500%Z
      /\ optMember (body resp) "success" = JBool false
      /\ (codeOf resp = JString "INVALID_API_KEY" <-> responseStatus e = Some 403%Z)
      /\ (codeOf resp = JString "TEST_FAILED" <-> responseStatus e <> Some 403%Z)
      /\ optMember (body resp) "details"
         = (if truthy (responseData e) then responseData e
            else JString (message e)).
Proof.
  intros log e Hfail. rewrite test_run, Hfail.
  exists (testCatch e).
  split; [reflexivity | split; [reflexivity | split; [reflexivity |]]].
  assert (Hcode : codeOf (testCatch e)
                  = JString (if statusIs e 403 then "INVALID_API_KEY" else "TEST_FAILED"))
    by reflexivity.
  rewrite Hcode.
  split; [| split; [| reflexivity]].
  - rewrite <- statusIs_iff. destruct (statusIs e 403); split;
      intros H; try reflexivity; discriminate.
  - rewrite <- statusIs_iff. destruct (statusIs e 403); split;
      intros H; try reflexivity; try discriminate; now elim H.
Qed.

(** *** The custom slug *)

Lemma trimStart_whitespaceOnly (s : string) :
  whitespaceOnly s -> trimStart s = "".
Proof.
  unfold whitespaceOnly, chars.
  induction s as [| c s IH]; intros H; [reflexivity |].
  cbn [list_ascii_of_string] in H. inversion H as [| ? ? Hc Hs]; subst.
  cbn [trimStart]. rewrite Hc. now apply IH.
Qed.

Lemma trim_whitespaceOnly (s : string) : whitespaceOnly s -> trim s = "".
Proof.
  intros H. unfold trim. now rewrite (trimStart_whitespaceOnly s H).
Qed.

Lemma not_validation_not_slug (c : value) :
  isValidationCode c = false -> c <> JString "INVALID_SLUG".
Proof. intros H ->. discriminate. Qed.

Lemma slugVerdict_valid (d s : string) :
  isValidSlug (Some (trim s)) = true ->
  slugVerdict d (JString s)
  = Forward d (if trim s =? "" then None else Some (trim s)).
Proof.
  intros Hvalid. unfold slugVerdict. rewrite Hvalid.
  destruct (s =? "") eqn:Es; [| reflexivity].
  apply String.eqb_eq in Es. subst s. reflexivity.
Qed.

(** C10. The handler validates and forwards the trimmed slug.  A
    [customSlug] made of whitespace only is handled exactly as an
    absent one, whatever the [url] and the provider.  A [customSlug]
    whose trimmed content is valid never makes the handler answer
    [INVALID_SLUG]; with a valid [url] the one request sent carries the
    trimmed slug as [slashtag], and no [slashtag] when nothing remains
    after trimming.  A [customSlug] whose trimmed content is not valid
    is rejected: with a valid [url] the answer is 400 [INVALID_SLUG]
    and no request is sent. *)
Theorem shorten_trims_custom_slug :
  (forall url s log,
      whitespaceOnly s ->
      shorten (requestBody url (Some (JString s))) log
      = shorten (requestBody url None) log)
  /\ (forall url s log resp,
        isValidSlug (Some (trim s)) = true ->
        fst (shorten (requestBody url (Some (JString s))) log) = inr resp ->
        codeOf resp <> JString "INVALID_SLUG")
  /\ (forall u s log,
        trim u <> "" ->
        isValidUrl (trim u) = true ->
        isValidSlug (Some (trim s)) = true ->
        snd (shorten (requestBody (JString u) (Some (JString s))) log)
        = log ++ [linksCall key (trim u)
                    (if trim s =? "" then None else Some (trim s))])
  /\ (forall u s log,
        trim u <> "" ->
        isValidUrl (trim u) = true ->
        isValidSlug (Some (trim s)) = false ->
        shorten (requestBody (JString u) (Some (JString s))) log
        = (inr invalidSlug, log)
        /\ statusCode invalidSlug = 400%Z
        /\ codeOf invalidSlug = JString "INVALID_SLUG").
Proof.
  split; [| split; [| split]].
  - intros url s log Hws. rewrite !shorten_run, !verdict_requestBody.
    f_equal. cbn [slugField]. unfold fieldsVerdict.
    assert (Hslug : forall d, slugVerdict d (JString s) = slugVerdict d JUndefined).
    { intros d. rewrite slugVerdict_valid
        by (rewrite (trim_whitespaceOnly s Hws); reflexivity).
      now rewrite (trim_whitespaceOnly s Hws). }
    destruct url; try reflexivity.
    destruct (trim s0 =? ""); [reflexivity |].
    destruct (isValidUrl (trim s0)); [apply Hslug | reflexivity].
  - intros url s log resp Hvalid.
    rewrite shorten_run, verdict_requestBody. cbn [slugField].
    unfold fieldsVerdict.
    assert (Hother : forall r : HttpResponse,
               isValidationCode (codeOf r) = false \/ r = missingUrl \/ r = invalidUrl ->
               inr r = inr resp :> Error + HttpResponse ->
               codeOf resp <> JString "INVALID_SLUG").
    { intros r Hr H. injection H as <-.
      destruct Hr as [Hr | [-> | ->]];
        [now apply not_validation_not_slug | discriminate | discriminate]. }
    destruct url as [| | b | n | m ex | u | items | fs]; cbn [truthy runVerdict fst];
      try (apply Hother; tauto);
      try (destruct b);
      try (destruct (negb _));
      try (apply Hother; first [ right; left; reflexivity
                               | left; apply shortenCatch_not_validation ]).
    destruct (trim u =? ""); [apply Hother; tauto |].
    destruct (isValidUrl (trim u)); [| apply Hother; tauto].
    rewrite (slugVerdict_valid _ _ Hvalid). intros H.
    apply not_validation_not_slug.
    exact (forward_not_validation _ _ log resp H).
  - intros u s log Hne Hurl Hvalid.
    rewrite shorten_run, verdict_requestBody. cbn [slugField].
    unfold fieldsVerdict.
    destruct (String.eqb_spec (trim u) ""); [contradiction |].
    rewrite Hurl, (slugVerdict_valid _ _ Hvalid). reflexivity.
  - intros u s log Hne Hurl Hinvalid.
    split; [| split; reflexivity].
    rewrite shorten_run, verdict_requestBody. cbn [slugField].
    unfold fieldsVerdict.
    destruct (String.eqb_spec (trim u) ""); [contradiction |].
    rewrite Hurl. unfold slugVerdict.
    destruct (String.eqb_spec s "") as [-> | _]; [discriminate Hinvalid |].
    rewrite Hinvalid. reflexivity.
Qed.

(** *** Schemes *)

(** The component accepts a URL only under [http:] or [https:]. *)
Lemma client_isValidUrl_scheme (str : string) :
  Client.isValidUrl str = true ->
  exists u, URL.parse str = Some u
            /\ (URL.scheme u = "http" \/ URL.scheme u = "https").
Proof.
  unfold Client.isValidUrl, URL.protocol.
  destruct (URL.parse str) as [u |]; [| discriminate].
  intros H. exists u. split; [reflexivity |].
  apply orb_true_iff in H.
  assert (Hcolon : forall a b : string, (a ++ ":" =? b ++ ":")%string = true -> a = b).
  { intros a b Hab. apply String.eqb_eq in Hab.
    revert b Hab. induction a as [| x a IH]; intros [| y b] Hab.
    - reflexivity.
    - destruct b; discriminate.
    - destruct a; discriminate.
    - injection Hab as -> Hab. f_equal. now apply IH. }
  destruct H as [H | H].
  - left. exact (Hcolon (URL.scheme u) "http" H).
  - right. exact (Hcolon (URL.scheme u) "https" H).
Qed.

(** Whatever the scheme, a [url] that [new URL] accepts is sent to the
    provider. *)
Lemma shorten_forwards_whatever_parses (u : string) (x : URL.t) (log : Log) :
  trim u <> "" ->
  URL.parse (trim u) = Some x ->
  snd (shorten (requestBody (JString u) None) log)
  = log ++ [linksCall key (trim u) None].
Proof.
  intros Hne Hparse.
  rewrite shorten_run, verdict_requestBody. cbn [slugField].
  unfold fieldsVerdict, isValidUrl.
  destruct (String.eqb_spec (trim u) ""); [contradiction |].
  rewrite Hparse. reflexivity.
Qed.

(** C1 (the code departs from it). The handler's [isValidUrl] accepts
    every string that parses as a URL, whatever its scheme: for the
    body [{url: "ftp://example.com/file"}] (where the component's own
    [isValidUrl] answers [false]) and for [{url: "javascript:alert(1)"}]
    the handler does not answer [INVALID_URL] and sends the URL to the
    provider. *)
Theorem shorten_forwards_other_schemes :
  isValidUrl "ftp://example.com/file" = true
  /\ Client.isValidUrl "ftp://example.com/file" = false
  /\ (forall log,
        exists resp,
          shorten (requestBody (JString "ftp://example.com/file") None) log
          = (inr resp, log ++ [linksCall key "ftp://example.com/file" None])
          /\ codeOf resp <> JString "INVALID_URL")
  /\ (forall log,
        exists resp,
          shorten (requestBody (JString "javascript:alert(1)") None) log
          = (inr resp, log ++ [linksCall key "javascript:alert(1)" None])
          /\ codeOf resp <> JString "INVALID_URL").
Proof.
  assert (Hforward : forall d log,
             exists resp,
               runVerdict key rebrandly (Forward d None) log
               = (inr resp, log ++ [linksCall key d None])
               /\ codeOf resp <> JString "INVALID_URL").
  { intros d log. eexists. split; [reflexivity |].
    intros H.
    pose proof (forward_not_validation d None log _ eq_refl) as Hcode.
    rewrite H in Hcode. discriminate. }
  split; [reflexivity | split; [reflexivity | split]];
    intros log; rewrite shorten_run, verdict_requestBody.
  - change (fieldsVerdict (JString "ftp://example.com/file") (slugField None))
      with (Forward "ftp://example.com/file" None).
    apply Hforward.
  - change (fieldsVerdict (JString "javascript:alert(1)") (slugField None))
      with (Forward "javascript:alert(1)" None).
    apply Hforward.
Qed.

End Proxy.

(** *** Runs against explicit providers *)

Section Providers.
Import Js Server.

Lemma isValidSlug_accepts_exactly_witness :
  isValidSlug (Some "my link") = false.
Proof.
  apply (proj2 (proj2 (proj2 isValidSlug_accepts_exactly))).
  left. simpl. tauto.
Defined.

(** The provider reports that the slashtag is taken: the answer is 422
    [VALIDATION_ERROR] with the provider's message. *)
Lemma shorten_maps_provider_failure_witness :
  exists resp,
    fst (shorten apiKey (rejecting slashtagTaken)
           (requestBody (JString "https://example.com") (Some (JString "taken"))) [])
    = inr resp
    /\ statusCode resp = 422%Z
    /\ codeOf resp = JString "VALIDATION_ERROR"
    /\ errorOf resp = JString "slashtag already exists".
Proof.
  destruct (shorten_maps_provider_failure apiKey (rejecting slashtagTaken)
              (requestBody (JString "https://example.com") (Some (JString "taken")))
              [] (linksCall apiKey "https://example.com" (Some "taken"))
              slashtagTaken eq_refl eq_refl)
    as [resp [Hresp [_ [H422 _]]]].
  exists resp. split; [exact Hresp | exact (H422 eq_refl)].
Defined.

(** A provider timeout: 408 [TIMEOUT], one request, no second one. *)
Example shorten_timeout_once :
  shorten apiKey (rejecting timedOut)
    (requestBody (JString "https://example.com") None) []
  = (inr (errorBody 408 (JString "Request timeout. Please try again.") "TIMEOUT"),
     [linksCall apiKey "https://example.com" None]).
Proof. reflexivity. Qed.

Lemma shorten_sends_at_most_one_request_witness :
  exists resp calls,
    shorten apiKey (rejecting timedOut)
      (requestBody (JString "https://example.com") None) []
    = (inr resp, [] ++ calls)
    /\ length calls = 1.
Proof.
  destruct (shorten_sends_at_most_one_request apiKey (rejecting timedOut)
              (requestBody (JString "https://example.com") None) [])
    as [resp [calls [Hrun [_ [_ [_ [Hone _]]]]]]].
  exists resp, calls. split; [exact Hrun |].
  apply Hone; [reflexivity |].
  assert (Hresp : resp = errorBody 408 (JString "Request timeout. Please try again.") "TIMEOUT").
  { rewrite shorten_timeout_once in Hrun. now injection Hrun. }
  rewrite Hresp. reflexivity.
Defined.

(** A body whose [url] is the number 123: [url.trim] is not a function,
    the [catch] block answers 500 [INTERNAL_ERROR], which is none of the
    validation answers, and no request has been sent. *)
Lemma shorten_number_url_sends_nothing :
  shorten apiKey (answering created) (JObject [("url", JNumber 123)]) []
  = (inr internalError, [])
  /\ statusCode internalError = 500%Z
  /\ codeOf internalError = JString "INTERNAL_ERROR"
  /\ isValidationCode (codeOf internalError) = false.
Proof. repeat split. Qed.

Lemma test_failure_code_witness :
  exists resp,
    test apiKey (rejecting forbidden) []
    = (inr resp, [accountCall apiKey])
    /\ codeOf resp = JString "INVALID_API_KEY".
Proof.
  destruct (test_failure_code apiKey (rejecting forbidden) [] forbidden eq_refl)
    as [resp [Hrun [_ [_ [Hkey _]]]]].
  exists resp. split; [exact Hrun | apply Hkey; reflexivity].
Defined.

Lemma shorten_trims_custom_slug_witness :
  snd (shorten apiKey (answering created)
         (requestBody (JString "https://example.com") (Some (JString " my-link "))) [])
  = [linksCall apiKey "https://example.com" (Some "my-link")].
Proof.
  apply (proj1 (proj2 (proj2 (shorten_trims_custom_slug apiKey (answering created))))
           "https://example.com" " my-link " []);
    [discriminate | reflexivity | reflexivity].
Defined.

(** A slug of spaces is forwarded as no slug at all. *)
Example shorten_blank_slug :
  snd (shorten apiKey (answering created)
         (requestBody (JString "https://example.com") (Some (JString "   "))) [])
  = [linksCall apiKey "https://example.com" None].
Proof. reflexivity. Qed.

End Providers.

(** ** The page *)

Section Page.
Import Js Client.

(** While a request is in flight no handler sends another one. *)
Lemma no_submission_while_loading (st : State) (ev : Event) :
  isLoading st = true ->
  existsb isShorten (sent st ev) = false.
Proof.
  intros Hload. unfold sent.
  destruct ev; cbn [dispatch]; unfold inputDisabled, buttonDisabled;
    rewrite ?Hload; try reflexivity.
  destruct (apiStatus st); reflexivity.
Qed.

(** The button sends nothing while the badge reads error. *)
Lemma no_click_submission_on_error (st : State) :
  apiStatus st = ApiError ->
  sent st ClickShorten = [].
Proof.
  intros Herr. unfold sent. cbn [dispatch]. unfold buttonDisabled. rewrite Herr.
  now rewrite orb_true_r.
Qed.

(** What the Enter key sends does not depend on the badge. *)
Lemma enter_ignores_badge (st : State) (a : ApiStatus) :
  sent (setApiStatus st a) (KeyPress "Enter") = sent st (KeyPress "Enter").
Proof.
  unfold sent. cbn [dispatch]. unfold inputDisabled, handleKeyPress, shortenUrl.
  cbn [setApiStatus isLoading url customSlugInput].
  destruct (isLoading st); [reflexivity |]. cbn [andb negb String.eqb Ascii.eqb Bool.eqb].
  repeat match goal with
         | |- context [if ?b then _ else _] => destruct b
         end; reflexivity.
Qed.

(** C7 (the code departs from it). After a failed credential probe the
    badge reads error and the button is disabled, yet pressing Enter in
    an input sends the shorten request: [handleKeyPress] checks
    [isLoading] only. *)
Theorem enter_submits_while_badge_reads_error :
  apiStatus afterFailedProbe = ApiError
  /\ isLoading afterFailedProbe = false
  /\ buttonDisabled afterFailedProbe = true
  /\ sent afterFailedProbe ClickShorten = []
  /\ sent afterFailedProbe (KeyPress "Enter")
     = [FetchShorten "https://example.com" None].
Proof. repeat split. Qed.

(** *** Loading the history *)

(** C4 (amended). When nothing, or the empty string, is stored, loading
    yields the empty list; for every other stored text, loading is
    [JSON.parse]: it yields the parsed value, a list when the text is
    the JSON text of a list, and it throws [SyntaxError] when the text
    is not JSON. *)
Theorem loadHistory_is_parse :
  loadHistory None = Normal (JArray [])
  /\ loadHistory (Some "") = Normal (JArray [])
  /\ (forall text, text <> "" ->
        loadHistory (Some text)
        = match JSON.parse text with
          | Some savedHistory => Normal savedHistory
          | None => Throw "SyntaxError"
          end)
  /\ (forall text items,
        JSON.parse text = Some (JArray items) ->
        loadHistory (Some text) = Normal (JArray items)).
Proof.
  split; [reflexivity | split; [reflexivity | split]].
  - intros text Hne. unfold loadHistory. cbn [truthy].
    destruct (String.eqb_spec text ""); [contradiction | reflexivity].
  - intros text items Hparse. unfold loadHistory. cbn [truthy].
    destruct (String.eqb_spec text "") as [-> | _]; [discriminate |].
    cbn [negb]. now rewrite Hparse.
Qed.

Lemma loadHistory_is_parse_witness :
  loadHistory (Some "[ ]") = Normal (JArray []).
Proof.
  apply (proj2 (proj2 (proj2 loadHistory_is_parse))). reflexivity.
Defined.

(** A saved history is read back as the list it is. *)
Example loadHistory_saved :
  loadHistory
    (Some ("[{" ++ quoted "id" ++ ":1700000000000,"
             ++ quoted "originalUrl" ++ ":" ++ quoted "https://example.com" ++ ","
             ++ quoted "customSlug" ++ ":null}]")%string)
  = Normal (JArray [JObject [("id", JNumber 1700000000000);
                             ("originalUrl", JString "https://example.com");
                             ("customSlug", JNull)]]).
Proof. reflexivity. Qed.

(** C4 (as stated) fails: stored text that is not JSON makes the load
    throw, and stored JSON that is not a list is returned as it is. *)
Lemma loadHistory_malformed :
  loadHistory (Some "not json") = Throw "SyntaxError"
  /\ loadHistory (Some "{oops") = Throw "SyntaxError"
  /\ loadHistory (Some "42") = Normal (JNumber 42).
Proof. repeat split. Qed.

End Page.

(** * Further properties *)

(** ** Trimming *)

Section Trim.
Import Js.

Lemma append_empty_r (s : string) : (s ++ "")%string = s.
Proof. induction s as [| c s IH]; [reflexivity | cbn; now rewrite IH]. Qed.

Lemma append_assoc (a b c : string) :
  ((a ++ b) ++ c)%string = (a ++ (b ++ c))%string.
Proof. induction a as [| x a IH]; [reflexivity | cbn; now rewrite IH]. Qed.

Lemma rev_append (a b : string) :
  rev (a ++ b) = (rev b ++ rev a)%string.
Proof.
  induction a as [| x a IH]; cbn [rev append].
  - now rewrite append_empty_r.
  - now rewrite IH, append_assoc.
Qed.

Lemma rev_involutive (s : string) : rev (rev s) = s.
Proof.
  induction s as [| c s IH]; [reflexivity |].
  cbn [rev]. rewrite rev_append, IH. reflexivity.
Qed.

Lemma trimStart_split (s : string) :
  exists w, s = (w ++ trimStart s)%string /\ allWhite w = true.
Proof.
  induction s as [| c s [w [Hs Hw]]].
  - exists "". now split.
  - cbn [trimStart]. destruct (isWhiteSpace c) eqn:Ec.
    + exists (String c w). split; [cbn; now rewrite <- Hs | cbn; now rewrite Ec].
    + exists "". now split.
Qed.

Lemma trimStart_headClean (s : string) : headClean (trimStart s) = true.
Proof.
  induction s as [| c s IH]; [reflexivity |].
  cbn [trimStart]. destruct (isWhiteSpace c) eqn:Ec; [exact IH |].
  cbn. now rewrite Ec.
Qed.

Lemma trimStart_clean (s : string) : headClean s = true -> trimStart s = s.
Proof.
  destruct s as [| c s]; [reflexivity |]. cbn.
  now destruct (isWhiteSpace c).
Qed.

(** [trimEnd] cuts a run of white space off the end. *)
Lemma trimEnd_split (s : string) :
  exists w, s = (trimEnd s ++ w)%string /\ allWhite (rev w) = true.
Proof.
  unfold trimEnd.
  destruct (trimStart_split (rev s)) as [w [Hs Hw]].
  exists (rev w). rewrite rev_involutive. split; [| exact Hw].
  rewrite <- rev_append, <- Hs. now rewrite rev_involutive.
Qed.

Lemma headClean_prefix (a w : string) :
  headClean (a ++ w) = true -> a <> "" -> headClean a = true.
Proof. destruct a; [now intros _ H | now cbn]. Qed.

Lemma headClean_allWhite (s : string) :
  headClean s = true -> allWhite s = true -> s = "".
Proof.
  destruct s as [| c s]; [reflexivity |]. cbn.
  destruct (isWhiteSpace c); discriminate.
Qed.

Lemma trimEnd_headClean (s : string) :
  headClean s = true -> headClean (trimEnd s) = true.
Proof.
  intros H. destruct (trimEnd_split s) as [w [Hs _]].
  destruct (string_dec (trimEnd s) "") as [-> | Hne]; [reflexivity |].
  rewrite Hs in H. exact (headClean_prefix _ _ H Hne).
Qed.

Lemma trimEnd_tailClean (s : string) : headClean (rev (trimEnd s)) = true.
Proof.
  unfold trimEnd. rewrite rev_involutive. apply trimStart_headClean.
Qed.

Lemma trimEnd_clean (s : string) : headClean (rev s) = true -> trimEnd s = s.
Proof.
  intros H. unfold trimEnd. rewrite (trimStart_clean _ H).
  apply rev_involutive.
Qed.

Lemma trim_trimmed (s : string) : trimmed (trim s).
Proof.
  unfold trimmed, trim. split.
  - apply trimEnd_headClean, trimStart_headClean.
  - apply trimEnd_tailClean.
Qed.

Lemma trimmed_trim (s : string) : trimmed s -> trim s = s.
Proof.
  intros [Hh Ht]. unfold trim. rewrite (trimStart_clean s Hh).
  now apply trimEnd_clean.
Qed.

Lemma trim_idempotent (s : string) : trim (trim s) = trim s.
Proof. apply trimmed_trim, trim_trimmed. Qed.

Lemma headClean_rev_append (a b : string) :
  b <> "" -> headClean (rev (a ++ b)) = headClean (rev b).
Proof.
  intros Hb. rewrite rev_append.
  destruct (rev b) as [| c r] eqn:E; [| reflexivity].
  exfalso. apply Hb. rewrite <- (rev_involutive b), E. reflexivity.
Qed.

(** A clean prefix in front of a trimmed, non-empty string. *)
Lemma trimmed_prepend (a b : string) :
  headClean a = true -> a <> "" -> trimmed b -> b <> "" -> trimmed (a ++ b).
Proof.
  intros Ha Hne [_ Hb] Hbne. split.
  - destruct a; [now elim Hne | exact Ha].
  - now rewrite headClean_rev_append.
Qed.

End Trim.

(** ** The page, further *)

Section PageRequests.
Import Js Client.

Lemma hasHttpPrefix_https (t : string) :
  hasHttpPrefix ("https://" ++ t) = true.
Proof. unfold hasHttpPrefix. cbn. now destruct t. Qed.

(** What [shortenUrl] sends, and what it leaves. *)
Lemma shortenUrl_cases (st : State) :
  (snd (shortenUrl st) = [] /\ isLoading (fst (shortenUrl st)) = isLoading st)
  \/ (exists fullUrl slug,
        snd (shortenUrl st) = [FetchShorten fullUrl slug]
        /\ isLoading (fst (shortenUrl st)) = true
        /\ trim (url st) <> ""
        /\ (fullUrl = trim (url st)
            \/ fullUrl = ("https://" ++ trim (url st))%string)
        /\ hasHttpPrefix fullUrl = true
        /\ isValidUrl fullUrl = true
        /\ slug = (if trim (customSlugInput st) =? "" then None
                   else Some (trim (customSlugInput st)))).
Proof.
  unfold shortenUrl. cbn [truthy].
  destruct (String.eqb_spec (trim (url st)) "") as [E | Hne]; cbn [negb].
  { left. now split. }
  destruct (hasHttpPrefix (trim (url st))) eqn:Ep; cbn [negb].
  - destruct (isValidUrl (trim (url st))) eqn:Ev; cbn [negb].
    + right. eexists. eexists. split; [reflexivity |].
      split; [reflexivity | split; [exact Hne | split; [now left |]]].
      split; [exact Ep | split; [exact Ev |]].
      now destruct (trim (customSlugInput st) =? "").
    + left. now split.
  - destruct (isValidUrl ("https://" ++ trim (url st))) eqn:Ev; cbn [negb].
    + right. eexists. eexists. split; [reflexivity |].
      split; [reflexivity | split; [exact Hne | split; [now right |]]].
      split; [apply hasHttpPrefix_https | split; [exact Ev |]].
      now destruct (trim (customSlugInput st) =? "").
    + left. now split.
Qed.

(** The URL that [shortenUrl] sends: the trimmed input as it is when it
    starts with [http://] or [https://], and behind [https://]
    otherwise. *)
Lemma shortenUrl_fullUrl (st : State) (fullUrl : string) (slug : option string) :
  snd (shortenUrl st) = [FetchShorten fullUrl slug] ->
  fullUrl = (if hasHttpPrefix (trim (url st)) then trim (url st)
             else ("https://" ++ trim (url st))%string).
Proof.
  unfold shortenUrl. cbn [truthy].
  destruct (trim (url st) =? ""); cbn [negb snd]; [discriminate |].
  destruct (hasHttpPrefix (trim (url st))); cbn [negb].
  - destruct (isValidUrl (trim (url st))); cbn [negb snd]; [| discriminate].
    intros H. now injection H as <- _.
  - destruct (isValidUrl ("https://" ++ trim (url st))); cbn [negb snd];
      [| discriminate].
    intros H. now injection H as <- _.
Qed.

(** A shorten request is sent by [shortenUrl] only, and only when no
    request is in flight. *)
Lemma sent_shorten_inv (st : State) (ev : Event) (fullUrl : string)
    (slug : option string) :
  In (FetchShorten fullUrl slug) (sent st ev) ->
  isLoading st = false
  /\ In (FetchShorten fullUrl slug) (snd (shortenUrl st)).
Proof.
  unfold sent.
  destruct ev; cbn [dispatch]; unfold inputDisabled, buttonDisabled,
    handleKeyPress, testApiConnection, copyToClipboard;
    try destruct (key =? "Enter");
    destruct (isLoading st); try destruct (apiStatus st);
    cbn [negb andb orb snd fst];
    intros H;
    first [ now split | destruct H as [H | []]; discriminate | destruct H ].
Qed.

(** What a shorten request of the page carries: a URL with one of the
    two prefixes, that the component's [isValidUrl] accepts. *)
Lemma sent_http_url (st : State) (ev : Event) (fullUrl : string)
    (slug : option string) :
  In (FetchShorten fullUrl slug) (sent st ev) ->
  snd (shortenUrl st) = [FetchShorten fullUrl slug]
  /\ hasHttpPrefix fullUrl = true
  /\ (exists u, URL.parse fullUrl = Some u
                /\ (URL.scheme u = "http" \/ URL.scheme u = "https")).
Proof.
  intros Hin.
  apply sent_shorten_inv in Hin. destruct Hin as [_ Hin].
  destruct (shortenUrl_cases st) as [[Hnone _] | [f [sl [Hsent H]]]].
  - rewrite Hnone in Hin. destruct Hin.
  - rewrite Hsent in Hin. destruct Hin as [Heq | []].
    injection Heq as <- <-.
    destruct H as [_ [_ [_ [Hpre [Hvalid _]]]]].
    split; [exact Hsent | split; [exact Hpre |]].
    now apply client_isValidUrl_scheme.
Qed.

(** Every shorten request that the page sends carries a URL that
    starts with [http://] or [https://] and parses under the scheme
    [http] or [https].  It is the trimmed input as it is when that
    starts with [http://] or [https://], and the trimmed input behind
    [https://] otherwise; the slug that goes with it is the trimmed slug
    input, left out when nothing remains of it. *)
Theorem page_sends_http_urls_only :
  forall st ev fullUrl slug,
    In (FetchShorten fullUrl slug) (sent st ev) ->
    hasHttpPrefix fullUrl = true
    /\ (exists u, URL.parse fullUrl = Some u
                  /\ (URL.scheme u = "http" \/ URL.scheme u = "https"))
    /\ fullUrl = (if hasHttpPrefix (trim (url st)) then trim (url st)
                  else ("https://" ++ trim (url st))%string)
    /\ slug = (if trim (customSlugInput st) =? "" then None
               else Some (trim (customSlugInput st))).
Proof.
  intros st ev fullUrl slug Hin.
  destruct (sent_http_url st ev fullUrl slug Hin) as [Hsent [Hpre Hscheme]].
  split; [exact Hpre | split; [exact Hscheme | split]].
  - exact (shortenUrl_fullUrl st fullUrl slug Hsent).
  - destruct (shortenUrl_cases st) as [[Hnone _] | [f [sl [Hsent' H]]]].
    + rewrite Hnone in Hsent. discriminate.
    + rewrite Hsent' in Hsent. injection Hsent as -> ->.
      destruct H as [_ [_ [_ [_ [_ Hslug]]]]]. exact Hslug.
Qed.

Lemma page_sends_http_urls_only_witness :
  hasHttpPrefix "https://example.com" = true.
Proof.
  apply (page_sends_http_urls_only
           (setUrl (initial []) " example.com ") ClickShorten
           "https://example.com" None).
  left. reflexivity.
Defined.

(** One step: a request sent puts one in flight; only a settled request
    takes one out of flight. *)
Lemma dispatch_in_flight (st : State) (ev : Event) :
  countShorten (sent st ev) + inFlight st
  <= settles [ev] + inFlight (fst (dispatch st ev)).
Proof.
  assert (Hshorten : isLoading st = false ->
            countShorten (snd (shortenUrl st)) + 0
            <= inFlight (fst (shortenUrl st))).
  { intros Hl. unfold inFlight.
    destruct (shortenUrl_cases st) as [[Hnone Hload] | [f [sl [Hsent [Hload _]]]]].
    - rewrite Hnone. cbn. lia.
    - rewrite Hsent, Hload. cbn. lia. }
  unfold sent.
  destruct ev; cbn [dispatch settles]; unfold inputDisabled, buttonDisabled,
    handleKeyPress, testApiConnection, copyToClipboard, testSettled;
    try destruct (key =? "Enter");
    try destruct dataSuccess as [[|] |];
    destruct (isLoading st) eqn:El; try destruct (apiStatus st);
    cbn [negb andb orb snd fst];
    first [ specialize (Hshorten eq_refl); unfold inFlight at 1; rewrite El; lia
          | unfold inFlight, countShorten; cbn; rewrite ?El; cbn; lia ].
Qed.

Lemma run_step (st : State) (ev : Event) (evs : list Event) :
  run st (ev :: evs)
  = (fst (run (fst (dispatch st ev)) evs),
     sent st ev ++ snd (run (fst (dispatch st ev)) evs)).
Proof.
  unfold sent. cbn [run]. destruct (dispatch st ev) as [st1 out1].
  cbn [fst snd]. now destruct (run st1 evs).
Qed.

Lemma countShorten_app (a b : list Effect) :
  countShorten (a ++ b) = countShorten a + countShorten b.
Proof. unfold countShorten. now rewrite filter_app, length_app. Qed.

Lemma run_in_flight (evs : list Event) (st : State) :
  countShorten (snd (run st evs)) + inFlight st
  <= settles evs + inFlight (fst (run st evs)).
Proof.
  revert st. induction evs as [| ev evs IH]; intros st.
  - cbn. lia.
  - rewrite run_step. cbn [fst snd]. rewrite countShorten_app.
    pose proof (dispatch_in_flight st ev) as Hstep.
    pose proof (IH (fst (dispatch st ev))) as Hrest.
    assert (Hs : settles (ev :: evs) = settles [ev] + settles evs)
      by (destruct ev; reflexivity).
    lia.
Qed.

(** The page never has two shorten requests in flight: over any
    sequence of events, it sends at most one more shorten request than
    requests have settled, and none more while one is in flight at the
    start. *)
Theorem page_one_request_in_flight :
  forall st evs,
    countShorten (snd (run st evs)) + inFlight st <= settles evs + 1.
Proof.
  intros st evs. pose proof (run_in_flight evs st) as H.
  assert (inFlight (fst (run st evs)) <= 1)
    by (unfold inFlight; destruct (isLoading _); lia).
  lia.
Qed.

End PageRequests.

(** ** The badge and the history, further *)

Section PageState.
Import Js Client.

Lemma run_app (a b : list Event) (st : State) :
  fst (run st (a ++ b)) = fst (run (fst (run st a)) b).
Proof.
  revert st. induction a as [| ev a IH]; intros st; [reflexivity |].
  cbn [app]. now rewrite !run_cons, IH.
Qed.

Lemma shortenUrl_apiStatus (st : State) :
  apiStatus (fst (shortenUrl st)) = apiStatus st.
Proof.
  unfold shortenUrl.
  repeat match goal with
         | |- context [if ?b then _ else _] => destruct b
         end; reflexivity.
Qed.

(** The badge moves on the settling of a probe only. *)
Lemma dispatch_apiStatus (st : State) (ev : Event) :
  apiStatus (fst (dispatch st ev))
  = match ev with
    | TestSettled (Some true) => Connected
    | TestSettled _ => ApiError
    | _ => apiStatus st
    end.
Proof.
  destruct ev; cbn [dispatch]; unfold inputDisabled, buttonDisabled,
    handleKeyPress, testApiConnection, copyToClipboard, shortenSettled;
    try destruct (key =? "Enter");
    try destruct dataSuccess as [[|] |];
    try destruct outcome as [m | r];
    try destruct (isLoading st);
    cbn [negb andb orb fst];
    first [ apply shortenUrl_apiStatus
          | reflexivity
          | destruct (ok r), (success r); reflexivity
          | destruct (apiStatus st) eqn:Ea; cbn [fst];
            rewrite ?shortenUrl_apiStatus; first [reflexivity | exact Ea] ].
Qed.

Lemma run_apiStatus_known (evs : list Event) (st : State) :
  apiStatus st <> Unknown -> apiStatus (fst (run st evs)) <> Unknown.
Proof.
  revert st. induction evs as [| ev evs IH]; intros st H; [exact H |].
  rewrite run_cons. apply IH. rewrite dispatch_apiStatus.
  destruct ev; try exact H. destruct dataSuccess as [[|] |]; discriminate.
Qed.

(** Once a credential probe has settled, the badge never reads
    "checking" again, whatever happens before and after; and it reads
    "connected" only if some probe settled with [success] true. *)
Theorem badge_known_after_probe :
  (forall st before r after,
      apiStatus (fst (run st (before ++ TestSettled r :: after))) <> Unknown)
  /\ (forall saved evs,
        apiStatus (fst (run (initial saved) evs)) = Connected ->
        In (TestSettled (Some true)) evs).
Proof.
  split.
  - intros st before r after.
    rewrite run_app, run_cons. apply run_apiStatus_known.
    rewrite dispatch_apiStatus. destruct r as [[|] |]; discriminate.
  - intros saved evs.
    assert (H : forall st, apiStatus (fst (run st evs)) = Connected ->
                           apiStatus st = Connected \/ In (TestSettled (Some true)) evs).
    { induction evs as [| ev evs IH]; intros st Hc; [now left |].
      rewrite run_cons in Hc. apply IH in Hc. destruct Hc as [Hc | Hc].
      - rewrite dispatch_apiStatus in Hc.
        destruct ev; try (now left).
        destruct dataSuccess as [[|] |]; try discriminate. right. now left.
      - right. now right. }
    intros Hc. destruct (H _ Hc) as [Hi | Hi]; [discriminate | exact Hi].
Qed.

Lemma badge_known_after_probe_witness :
  In (TestSettled (Some true)) [ChangeUrl "a"; TestSettled (Some true)].
Proof.
  apply (proj2 badge_known_after_probe []). reflexivity.
Defined.

(** *** Deleting *)

Lemma deleteFromHistory_absent (rid : Z) (h : list HistoryEntry) :
  ~ In rid (ids h) -> deleteFromHistory rid h = h.
Proof.
  unfold deleteFromHistory, ids.
  induction h as [| e h IH]; intros Hout; [reflexivity |].
  cbn [filter map] in *.
  destruct (Z.eqb_spec (id e) rid) as [E | E]; cbn [negb].
  - elim Hout. now left.
  - f_equal. apply IH. intros Hin. apply Hout. now right.
Qed.

Lemma deleteFromHistory_app (rid : Z) (a b : list HistoryEntry) :
  deleteFromHistory rid (a ++ b)
  = deleteFromHistory rid a ++ deleteFromHistory rid b.
Proof. apply filter_app. Qed.

(** [deleteFromHistory] takes out every entry that carries the id and
    no other, keeping the order of the rest: an id that no entry
    carries leaves the history as it is; when the ids are pairwise
    distinct, exactly the entry deleted goes; and two entries that
    share an id go together. *)
Theorem deleteFromHistory_removes_id :
  (forall rid h, ~ In rid (ids h) -> deleteFromHistory rid h = h)
  /\ (forall rid h, ~ In rid (ids (deleteFromHistory rid h)))
  /\ (forall h1 e h2,
        NoDup (ids (h1 ++ e :: h2)) ->
        deleteFromHistory (id e) (h1 ++ e :: h2) = h1 ++ h2)
  /\ (forall h1 e1 h2 e2 h3,
        id e1 = id e2 ->
        deleteFromHistory (id e1) (h1 ++ e1 :: h2 ++ e2 :: h3)
        = deleteFromHistory (id e1) (h1 ++ h2 ++ h3)).
Proof.
  split; [exact deleteFromHistory_absent | split; [| split]].
  - intros rid h Hin. unfold ids in Hin. apply in_map_iff in Hin.
    destruct Hin as [e [He Hin]]. unfold deleteFromHistory in Hin.
    apply filter_In in Hin. destruct Hin as [_ Hin].
    rewrite He, Z.eqb_refl in Hin. discriminate.
  - intros h1 e h2 Hnd. unfold ids in Hnd. rewrite map_app in Hnd.
    cbn [map] in Hnd. pose proof (NoDup_remove_2 _ _ _ Hnd) as Hout.
    rewrite deleteFromHistory_app.
    change (deleteFromHistory (id e) (e :: h2))
      with (if negb (id e =? id e)%Z then e :: deleteFromHistory (id e) h2
            else deleteFromHistory (id e) h2).
    rewrite Z.eqb_refl. cbn [negb].
    rewrite !deleteFromHistory_absent; [reflexivity | |];
      intros Hin; apply Hout; apply in_or_app; [now right | now left].
  - intros h1 e1 h2 e2 h3 Heq.
    rewrite !deleteFromHistory_app.
    change (deleteFromHistory (id e1) (e1 :: h2 ++ e2 :: h3))
      with (if negb (id e1 =? id e1)%Z
            then e1 :: deleteFromHistory (id e1) (h2 ++ e2 :: h3)
            else deleteFromHistory (id e1) (h2 ++ e2 :: h3)).
    rewrite Z.eqb_refl. cbn [negb]. rewrite !deleteFromHistory_app.
    change (deleteFromHistory (id e1) (e2 :: h3))
      with (if negb (id e2 =? id e1)%Z then e2 :: deleteFromHistory (id e1) h3
            else deleteFromHistory (id e1) h3).
    rewrite <- Heq, Z.eqb_refl. reflexivity.
Qed.

Lemma deleteFromHistory_removes_id_witness :
  deleteFromHistory 7
    [newEntry 5 "https://a.example/" exampleReply;
     newEntry 7 "https://b.example/" exampleReply;
     newEntry 9 "https://c.example/" exampleReply]
  = [newEntry 5 "https://a.example/" exampleReply;
     newEntry 9 "https://c.example/" exampleReply].
Proof.
  apply (proj1 (proj2 (proj2 deleteFromHistory_removes_id))
           [newEntry 5 "https://a.example/" exampleReply]
           (newEntry 7 "https://b.example/" exampleReply)
           [newEntry 9 "https://c.example/" exampleReply]).
  cbn. repeat constructor; cbn; intuition discriminate.
Defined.

End PageState.

(** ** The handlers, further *)

Section Handlers.
Import Js Server.

Variable key : value.
Variable rebrandly : Log -> HttpCall -> Error + AxiosResponse.

Abbreviation shorten := (Server.shorten key rebrandly).
Abbreviation test := (Server.test key rebrandly).
Abbreviation stats := (Server.stats key rebrandly).

Lemma stats_run (log : Log) :
  stats log
  = (inr match rebrandly log (statsCall key) with
         | inl e => statsFailure
         | inr response => onStats response
         end,
     log ++ [(statsCall key)]).
Proof.
  unfold Server.stats, tryCatch, bind, axios_get, axios, statsCall, onStats.
  change (REBRANDLY_BASE_URL ++ "/account")%string
    with "https://api.rebrandly.com/v1/account".
  destruct (rebrandly log _) as [e | response]; [reflexivity |].
  unfold getMember, ret, throw.
  destruct (data response); reflexivity.
Qed.

(** The requests that the handlers have sent once the provider has
    settled them.  Every one goes to the provider's API and carries the
    configured key; [POST /shorten] has sent at most one, with a
    timeout of ten seconds, [GET /test] exactly one, with a timeout of
    five seconds, and [GET /stats] exactly one, with no timeout: nothing
    bounds the time that [GET /stats] waits for the provider. *)
Theorem handlers_call_the_provider_only :
  (forall req_body log,
      exists calls,
        snd (shorten req_body log) = log ++ calls
        /\ length calls <= 1
        /\ Forall (toProvider key) calls
        /\ Forall (fun call => callTimeout call = Some 10000%Z) calls)
  /\ (forall log,
        exists call,
          snd (test log) = log ++ [call]
          /\ toProvider key call
          /\ callTimeout call = Some 5000%Z)
  /\ (forall log,
        exists call,
          snd (stats log) = log ++ [call]
          /\ toProvider key call
          /\ callTimeout call = None).
Proof.
  split; [| split].
  - intros req_body log. rewrite shorten_run.
    destruct (verdict req_body) as [resp | d sl]; cbn [runVerdict snd].
    + exists []. rewrite app_nil_r.
      split; [reflexivity | split; [cbn; lia | split; constructor]].
    + exists [linksCall key d sl].
      split; [reflexivity | split; [cbn; lia | split]];
        (constructor; [| constructor]); [now split | reflexivity].
  - intros log. rewrite test_run. exists (accountCall key).
    split; [reflexivity | split; [now split | reflexivity]].
  - intros log. rewrite stats_run. exists (statsCall key).
    split; [reflexivity | split; [now split | reflexivity]].
Qed.

(** *** The answers of [POST /shorten] *)

Lemma shortenCatch_isErrorAnswer (e : Error) : isErrorAnswer (shortenCatch e).
Proof.
  unfold shortenCatch, isErrorAnswer.
  destruct (statusIs e 403); [cbn; tauto |].
  destruct (statusIs e 422).
  { split; [cbn; tauto | split; [reflexivity |]].
    change (errorOf _) with
      (or_else (optMember (optIndex0 (optMember (responseData e) "errors")) "message")
         (JString "Invalid URL or custom slug already exists")).
    unfold or_else.
    destruct (truthy (optMember _ "message")) eqn:E; [exact E | reflexivity]. }
  destruct (statusIs e 429); [cbn; tauto |].
  destruct (codeIs e "ECONNABORTED"); cbn; tauto.
Qed.

Lemma verdict_answer_isErrorAnswer (req_body : value) (resp : HttpResponse) :
  verdict req_body = Answer resp -> isErrorAnswer resp.
Proof.
  unfold verdict.
  assert (Hfields : forall url customSlug,
             fieldsVerdict url customSlug = Answer resp -> isErrorAnswer resp).
  { intros url customSlug. unfold fieldsVerdict, slugVerdict, notAString.
    assert (Hcases : forall r : HttpResponse,
               isErrorAnswer r -> Answer r = Answer resp -> isErrorAnswer resp)
      by (intros r Hr H; now injection H as <-).
    assert (Hm : isErrorAnswer missingUrl) by (unfold isErrorAnswer; cbn; tauto).
    assert (Hu : isErrorAnswer invalidUrl) by (unfold isErrorAnswer; cbn; tauto).
    assert (Hs : isErrorAnswer invalidSlug) by (unfold isErrorAnswer; cbn; tauto).
    pose proof (shortenCatch_isErrorAnswer (TypeError "trim is not a function")) as Ht.
    destruct url as [| | b | n | m ex | u | items | fs];
      try (destruct (truthy _); eauto; fail).
    destruct (trim u =? ""); [eauto |].
    destruct (isValidUrl (trim u)); [| eauto].
    destruct customSlug as [| | b | n | m ex | s | items | fs];
      try (destruct (truthy _); try discriminate; eauto; fail).
    destruct (s =? ""); [discriminate |].
    destruct (isValidSlug (Some (trim s))); [discriminate | eauto]. }
  destruct req_body; eauto;
    intros H; injection H as <-; apply shortenCatch_isErrorAnswer.
Qed.

(** [POST /shorten] has two kinds of answers.  An error answer carries
    one of eight codes with its status, a displayable [error] and no
    [success] field.  A success answer has status 200 and
    [success: true], is given only after a request to the provider, and
    echoes as [originalUrl] the destination of that request. *)
Theorem shorten_answer_kinds :
  forall req_body log,
  exists resp calls,
    shorten req_body log = (inr resp, log ++ calls)
    /\ (isErrorAnswer resp
        \/ (statusCode resp = 200%Z
            /\ optMember (body resp) "success" = JBool true
            /\ codeOf resp = JUndefined
            /\ exists destination slashtag,
                 calls = [linksCall key destination slashtag]
                 /\ optMember (body resp) "originalUrl" = JString destination)).
Proof.
  intros req_body log. rewrite shorten_run.
  destruct (verdict req_body) as [resp | d sl] eqn:V; cbn [runVerdict].
  - exists resp, []. rewrite app_nil_r. split; [reflexivity |].
    left. exact (verdict_answer_isErrorAnswer _ _ V).
  - eexists. exists [linksCall key d sl]. split; [reflexivity |].
    destruct (rebrandly log _) as [e | response];
      [left; apply shortenCatch_isErrorAnswer |].
    unfold onResponse.
    destruct (data response);
      try (left; apply shortenCatch_isErrorAnswer);
      right; (split; [reflexivity | split; [reflexivity | split; [reflexivity |]]]);
      exists d, sl; now split.
Qed.

(** *** What is forwarded *)

Lemma verdict_forward_validated (req_body : value) (d : string)
    (sl : option string) :
  verdict req_body = Forward d sl -> validated d sl.
Proof.
  unfold verdict.
  assert (Hfields : forall url customSlug,
             fieldsVerdict url customSlug = Forward d sl -> validated d sl).
  { intros url customSlug. unfold fieldsVerdict, slugVerdict, isValidUrl.
    destruct url as [| | b | n | m ex | u | items | fs];
      try (destruct (truthy _); discriminate).
    destruct (String.eqb_spec (trim u) "") as [| Hne]; [discriminate |].
    destruct (URL.parse (trim u)) as [x |] eqn:Ep; [| discriminate].
    assert (Hd : forall t, Forward (trim u) t = Forward d sl ->
                           match t with
                           | None => True
                           | Some t =>
                               trimmed t /\ Forall inSlugCharset (chars t)
                               /\ 3 <= String.length t <= 50
                           end -> validated d sl).
    { intros t H Ht. injection H as <- <-.
      split; [exact Hne | split; [apply trim_trimmed | split; [now exists x | exact Ht]]]. }
    destruct customSlug as [| | b | n | m ex | s | items | fs];
      try (destruct (truthy _); try discriminate; intros H; now apply (Hd None)).
    destruct (s =? ""); [intros H; now apply (Hd None) |].
    destruct (isValidSlug (Some (trim s))) eqn:Ev; [| discriminate].
    destruct (String.eqb_spec (trim s) "") as [| Hs];
      intros H; [now apply (Hd None) |].
    apply (Hd (Some (trim s)) H). split; [apply trim_trimmed |].
    now apply isValidSlug_nonempty. }
  destruct req_body; eauto; discriminate.
Qed.

(** [POST /shorten] never forwards what it has not validated: the
    destination of a request to the provider is non-empty, without
    white space at either end, and parses as a URL; a slashtag, when
    the request has one, has 3 to 50 characters, all of them letters,
    digits, underscores or hyphens. *)
Theorem shorten_forwards_validated_only :
  forall req_body log call,
    In call (skipn (length log) (snd (shorten req_body log))) ->
    exists destination slashtag,
      call = linksCall key destination slashtag
      /\ validated destination slashtag.
Proof.
  intros req_body log call. rewrite shorten_run.
  destruct (verdict req_body) as [resp | d sl] eqn:V; cbn [runVerdict snd].
  - rewrite skipn_all. intros [].
  - rewrite skipn_app, skipn_all, Nat.sub_diag. cbn [skipn app].
    intros [<- | []]. exists d, sl. split; [reflexivity |].
    exact (verdict_forward_validated _ _ _ V).
Qed.

(** *** The statistics *)

(** [GET /stats] answers 500 with a fixed body, which shows nothing of
    the provider's error, when the provider fails or sends no data;
    otherwise it answers 200 with the three counters, each of them the
    provider's value when it is truthy and the default otherwise. *)
Theorem stats_answer :
  forall log,
  exists resp,
    stats log = (inr resp, log ++ [(statsCall key)])
    /\ match rebrandly log (statsCall key) with
       | inl e => resp = statsFailure
       | inr response =>
           if nullish (data response) then resp = statsFailure
           else
             statusCode resp = 200%Z
             /\ optMember (body resp) "success" = JBool true
             /\ (forall k default,
                    In (k, default)
                      [("linksCreated", JNumber 0);
                       ("linksLimit", JString "Unlimited");
                       ("clicksTracked", JNumber 0)] ->
                    statField resp k
                    = (if truthy (optMember (data response) k)
                       then optMember (data response) k else default))
       end.
Proof.
  intros log. rewrite stats_run. eexists. split; [reflexivity |].
  destruct (rebrandly log (statsCall key)) as [e | response]; [reflexivity |].
  unfold onStats. destruct (nullish (data response)); [reflexivity |].
  split; [reflexivity | split; [reflexivity |]].
  intros k default [H | [H | [H | []]]]; injection H as <- <-; reflexivity.
Qed.

End Handlers.

(** ** The page and the proxy together *)

Section EndToEnd.
Import Js Server.

Variable key : value.
Variable rebrandly : Log -> HttpCall -> Error + AxiosResponse.

Abbreviation shorten := (Server.shorten key rebrandly).

Lemma sent_trimmed (st : Client.State) (ev : Client.Event)
    (fullUrl : string) (slug : option string) :
  In (Client.FetchShorten fullUrl slug) (sent st ev) ->
  fullUrl <> "" /\ trimmed fullUrl /\ isValidUrl fullUrl = true
  /\ match slug with
     | Some t => t <> "" /\ trimmed t
     | None => True
     end.
Proof.
  intros Hin. apply sent_shorten_inv in Hin. destruct Hin as [_ Hin].
  destruct (shortenUrl_cases st) as [[Hnone _] | [f [sl [Hsent H]]]].
  { rewrite Hnone in Hin. destruct Hin. }
  rewrite Hsent in Hin. destruct Hin as [Heq | []]. injection Heq as <- <-.
  destruct H as [_ [Hne [Hfull [_ [Hvalid Hslug]]]]].
  assert (Hparse : isValidUrl f = true).
  { unfold isValidUrl. unfold Client.isValidUrl in Hvalid.
    now destruct (URL.parse f). }
  assert (Hf : f <> "" /\ trimmed f).
  { destruct Hfull as [-> | ->].
    - split; [exact Hne | apply trim_trimmed].
    - split; [discriminate |].
      apply trimmed_prepend; [reflexivity | discriminate | apply trim_trimmed | exact Hne]. }
  destruct Hf as [Hf1 Hf2].
  split; [exact Hf1 | split; [exact Hf2 | split; [exact Hparse |]]].
  rewrite Hslug.
  destruct (String.eqb_spec (trim (Client.customSlugInput st)) "") as [| Hs];
    [exact I | split; [exact Hs | apply trim_trimmed]].
Qed.

Lemma page_request_run (st : Client.State) (ev : Client.Event)
    (fullUrl : string) (slug : option string) (log : Log) :
  In (Client.FetchShorten fullUrl slug) (sent st ev) ->
  shorten (postedBody fullUrl slug) log
  = runVerdict key rebrandly
      (if isValidSlug slug then Forward fullUrl slug else Answer invalidSlug)
      log.
Proof.
  intros Hin.
  apply sent_trimmed in Hin. destruct Hin as [Hne [Htrim [Hvalid Hslug]]].
  rewrite shorten_run. f_equal.
  unfold postedBody. rewrite verdict_requestBody.
  unfold fieldsVerdict. rewrite (trimmed_trim _ Htrim), Hvalid.
  destruct (String.eqb_spec fullUrl ""); [contradiction |].
  destruct slug as [t |]; cbn [option_map slugField slugVerdict truthy].
  - destruct Hslug as [Ht1 Ht2]. rewrite (trimmed_trim _ Ht2).
    destruct (String.eqb_spec t ""); [contradiction |].
    now destruct (isValidSlug (Some t)).
  - reflexivity.
Qed.

(** A request that the page sends is never answered [MISSING_URL] or
    [INVALID_URL]: the handler answers [INVALID_SLUG] without a request
    to the provider when the slug sent is not a valid one, and
    otherwise forwards to the provider the URL and the slug exactly as
    the page sent them. *)
Theorem page_requests_pass_url_validation :
  forall st ev fullUrl slug log,
    In (Client.FetchShorten fullUrl slug) (sent st ev) ->
    (isValidSlug slug = false ->
     shorten (postedBody fullUrl slug) log = (inr invalidSlug, log))
    /\ (isValidSlug slug = true ->
        exists resp,
          shorten (postedBody fullUrl slug) log
          = (inr resp, log ++ [linksCall key fullUrl slug])
          /\ isValidationCode (codeOf resp) = false).
Proof.
  intros st ev fullUrl slug log Hin.
  rewrite (page_request_run st ev fullUrl slug log Hin).
  split; intros Hs; rewrite Hs; [reflexivity |].
  eexists. split; [reflexivity |].
  exact (forward_not_validation key rebrandly fullUrl slug log _ eq_refl).
Qed.

End EndToEnd.

Section EndToEndRuns.
Import Js Server.

Lemma page_requests_pass_url_validation_witness :
  exists resp,
    shorten apiKey (answering created)
      (postedBody "https://example.com" (Some "my-link")) []
    = (inr resp, [] ++ [linksCall apiKey "https://example.com" (Some "my-link")])
    /\ isValidationCode (codeOf resp) = false.
Proof.
  apply (page_requests_pass_url_validation apiKey (answering created)
           (Client.setCustomSlug (Client.setUrl (Client.initial []) "example.com")
              " my-link ")
           Client.ClickShorten "https://example.com" (Some "my-link") []);
    [left; reflexivity | reflexivity].
Defined.

Lemma shorten_forwards_validated_only_witness :
  exists destination slashtag,
    linksCall apiKey "https://example.com" (Some "my-link")
    = linksCall apiKey destination slashtag
    /\ validated destination slashtag.
Proof.
  apply (shorten_forwards_validated_only apiKey (answering created)
           (requestBody (JString " https://example.com ") (Some (JString "my-link ")))
           []).
  left. reflexivity.
Defined.

End EndToEndRuns.

(** ** What the user reads after a failure *)

Section Display.
Import Js Server.

Lemma value_code_dec (e : Error) :
  code e = JString "ECONNABORTED" \/ code e <> JString "ECONNABORTED".
Proof.
  destruct (codeIs e "ECONNABORTED") eqn:E.
  - left. now apply codeIs_iff.
  - right. intros H. apply codeIs_iff in H. congruence.
Qed.

Lemma shortenCatch_cases (e : Error) :
  (responseStatus e = Some 403%Z ->
   shortenCatch e
   = errorBody 403 (JString "Invalid API key or quota exceeded") "API_KEY_ERROR")
  /\ (responseStatus e = Some 422%Z ->
      shortenCatch e
      = errorBody 422
          (or_else (firstFieldMessage e)
             (JString "Invalid URL or custom slug already exists"))
          "VALIDATION_ERROR")
  /\ (responseStatus e = Some 429%Z ->
      shortenCatch e
      = errorBody 429 (JString "Rate limit exceeded. Please try again later.")
          "RATE_LIMIT")
  /\ (plainStatus e -> code e = JString "ECONNABORTED" ->
      shortenCatch e
      = errorBody 408 (JString "Request timeout. Please try again.") "TIMEOUT")
  /\ (plainStatus e -> code e <> JString "ECONNABORTED" ->
      shortenCatch e
      = errorBody 500 (JString "Failed to shorten URL. Please try again.")
          "INTERNAL_ERROR").
Proof.
  unfold shortenCatch.
  split; [| split; [| split; [| split]]].
  - intros H. now rewrite (proj2 (statusIs_iff e 403) H).
  - intros H.
    rewrite (statusIs_false e 403) by (rewrite H; discriminate).
    now rewrite (proj2 (statusIs_iff e 422) H).
  - intros H.
    rewrite (statusIs_false e 403) by (rewrite H; discriminate).
    rewrite (statusIs_false e 422) by (rewrite H; discriminate).
    now rewrite (proj2 (statusIs_iff e 429) H).
  - intros [H403 [H422 H429]] Hcode.
    now rewrite (statusIs_false e 403 H403), (statusIs_false e 422 H422),
      (statusIs_false e 429 H429), (proj2 (codeIs_iff e _) Hcode).
  - intros [H403 [H422 H429]] Hcode.
    rewrite (statusIs_false e 403 H403), (statusIs_false e 422 H422),
      (statusIs_false e 429 H429).
    destruct (codeIs e "ECONNABORTED") eqn:E; [| reflexivity].
    apply codeIs_iff in E. contradiction.
Qed.

(** A failed answer with a message: the page shows it through
    [displayedError], stops loading and keeps the rest. *)
Lemma settle_failed (st : Client.State) (fullUrl : string) (now : Z)
    (r : Client.Reply) (n : Z) (msg c : string) :
  reads (errorBody n (JString msg) c) r ->
  (n < 200 \/ 299 < n)%Z -> msg <> "" ->
  Client.shortenSettled st fullUrl (Client.Responded r) now
  = Client.setIsLoading (Client.setError st (Client.displayedError msg)) false.
Proof.
  intros [Hok [Herr _]] Hn Hmsg. unfold Client.shortenSettled.
  cbn [statusCode errorBody json] in Hok.
  assert (Hfalse : Client.ok r = false).
  { rewrite Hok. destruct Hn; [apply andb_false_iff; left | apply andb_false_iff; right];
      apply Z.leb_gt; lia. }
  rewrite Hfalse, (Herr msg eq_refl). cbn [negb truthy].
  destruct (String.eqb_spec msg ""); [contradiction | reflexivity].
Qed.

(** What the page shows when the provider fails a request that the
    proxy forwarded: a 403 (an invalid key as much as an exhausted
    quota) reads as a monthly quota exceeded; a 422 without a message
    from the provider reads as a slug already taken; a 429, a timeout
    and any other failure read as the proxy words them.  In each case
    the page stops loading and keeps its history and its result. *)
Theorem provider_failures_on_the_page :
  forall e st fullUrl now r,
    reads (shortenCatch e) r ->
    (responseStatus e = Some 422%Z -> truthy (firstFieldMessage e) = false) ->
    let st' := Client.shortenSettled st fullUrl (Client.Responded r) now in
    Client.isLoading st' = false
    /\ Client.urlHistory st' = Client.urlHistory st
    /\ Client.shortenedUrl st' = Client.shortenedUrl st
    /\ (responseStatus e = Some 403%Z ->
        Client.error st'
        = "Monthly quota exceeded. Please try again next month or upgrade your plan.")
    /\ (responseStatus e = Some 422%Z ->
        Client.error st'
        = "This custom slug is already taken. Please try a different one.")
    /\ (responseStatus e = Some 429%Z ->
        Client.error st' = "Rate limit exceeded. Please try again later.")
    /\ (plainStatus e -> code e = JString "ECONNABORTED" ->
        Client.error st' = "Request timeout. Please try again.")
    /\ (plainStatus e -> code e <> JString "ECONNABORTED" ->
        Client.error st' = "Failed to shorten URL. Please try again.").
Proof.
  intros e st fullUrl now r Hreads Hno st'. subst st'.
  destruct (shortenCatch_cases e) as [C403 [C422 [C429 [Ctime Cother]]]].
  assert (Hsettle : exists msg,
             Client.shortenSettled st fullUrl (Client.Responded r) now
             = Client.setIsLoading
                 (Client.setError st (Client.displayedError msg)) false
             /\ (responseStatus e = Some 403%Z ->
                 msg = "Invalid API key or quota exceeded")
             /\ (responseStatus e = Some 422%Z ->
                 msg = "Invalid URL or custom slug already exists")
             /\ (responseStatus e = Some 429%Z ->
                 msg = "Rate limit exceeded. Please try again later.")
             /\ (plainStatus e -> code e = JString "ECONNABORTED" ->
                 msg = "Request timeout. Please try again.")
             /\ (plainStatus e -> code e <> JString "ECONNABORTED" ->
                 msg = "Failed to shorten URL. Please try again.")).
  { destruct (responseStatus e) as [n |] eqn:Es.
    - destruct (Z.eq_dec n 403) as [-> | N403].
      { rewrite (C403 eq_refl) in Hreads. eexists. split.
        - apply (settle_failed _ _ _ _ _ _ _ Hreads); [lia | discriminate].
        - repeat split; try reflexivity; try discriminate;
            intros [H _]; now elim H. }
      destruct (Z.eq_dec n 422) as [-> | N422].
      { rewrite (C422 eq_refl) in Hreads. unfold or_else in Hreads.
        rewrite (Hno eq_refl) in Hreads. eexists. split.
        - apply (settle_failed _ _ _ _ _ _ _ Hreads); [lia | discriminate].
        - repeat split; try reflexivity; try discriminate;
            intros [_ [H _]]; now elim H. }
      destruct (Z.eq_dec n 429) as [-> | N429].
      { rewrite (C429 eq_refl) in Hreads. eexists. split.
        - apply (settle_failed _ _ _ _ _ _ _ Hreads); [lia | discriminate].
        - repeat split; try reflexivity; try discriminate;
            intros [_ [_ H]]; now elim H. }
      assert (Hplain : plainStatus e)
        by (unfold plainStatus; rewrite Es; repeat split; congruence).
      destruct (value_code_dec e) as [Hc | Hc].
      + rewrite (Ctime Hplain Hc) in Hreads. eexists. split.
        * apply (settle_failed _ _ _ _ _ _ _ Hreads); [lia | discriminate].
        * repeat split; try reflexivity; try congruence; intros; contradiction.
      + rewrite (Cother Hplain Hc) in Hreads. eexists. split.
        * apply (settle_failed _ _ _ _ _ _ _ Hreads); [lia | discriminate].
        * repeat split; try reflexivity; try congruence; intros; contradiction.
    - assert (Hplain : plainStatus e)
        by (unfold plainStatus; rewrite Es; repeat split; discriminate).
      destruct (value_code_dec e) as [Hc | Hc].
      + rewrite (Ctime Hplain Hc) in Hreads. eexists. split.
        * apply (settle_failed _ _ _ _ _ _ _ Hreads); [lia | discriminate].
        * repeat split; try reflexivity; try discriminate; intros; contradiction.
      + rewrite (Cother Hplain Hc) in Hreads. eexists. split.
        * apply (settle_failed _ _ _ _ _ _ _ Hreads); [lia | discriminate].
        * repeat split; try reflexivity; try discriminate; intros; contradiction. }
  destruct Hsettle as [msg [-> [M403 [M422 [M429 [Mtime Mother]]]]]].
  split; [reflexivity | split; [reflexivity | split; [reflexivity |]]].
  cbn [Client.error Client.setIsLoading Client.setError].
  split; [intros H; now rewrite (M403 H) |].
  split; [intros H; now rewrite (M422 H) |].
  split; [intros H; now rewrite (M429 H) |].
  split; [intros H H'; now rewrite (Mtime H H') |].
  intros H H'; now rewrite (Mother H H').
Qed.

End Display.

Section DisplayRuns.
Import Js Server.

Lemma provider_failures_on_the_page_witness :
  Client.error
    (Client.shortenSettled (Client.initial []) "https://example.com"
       (Client.Responded forbiddenReply) 1700000000000)
  = "Monthly quota exceeded. Please try again next month or upgrade your plan.".
Proof.
  apply (provider_failures_on_the_page forbidden (Client.initial [])
           "https://example.com" 1700000000000 forbiddenReply).
  - split; [reflexivity | split; [| reflexivity]].
    intros s H. injection H as <-. reflexivity.
  - discriminate.
  - reflexivity.
Defined.

End DisplayRuns.

(** ** The application *)

Section Application.
Import Js App.

Lemma splitFrom_no_separator (sep : ascii) (current s : string) :
  ~ In sep (chars s) -> splitFrom sep current s = [(current ++ s)%string].
Proof.
  revert current. induction s as [| c s IH]; intros current Hout.
  - cbn. now rewrite append_empty_r.
  - cbn [splitFrom]. destruct (Ascii.eqb_spec c sep) as [-> | Hc].
    + elim Hout. now left.
    + rewrite IH by (intros H; apply Hout; now right).
      now rewrite append_assoc.
Qed.

Lemma splitFrom_at_separator (sep : ascii) (current a b : string) :
  ~ In sep (chars a) ->
  splitFrom sep current (a ++ String sep b)
  = (current ++ a)%string :: splitFrom sep "" b.
Proof.
  revert current. induction a as [| c a IH]; intros current Hout.
  - cbn [append splitFrom]. rewrite Ascii.eqb_refl. now rewrite append_empty_r.
  - cbn [append splitFrom]. destruct (Ascii.eqb_spec c sep) as [-> | Hc].
    + elim Hout. now left.
    + rewrite IH by (intros H; apply Hout; now right).
      now rewrite append_assoc.
Qed.

Lemma trim_after_space (o : string) : trimmed o -> trim (" " ++ o) = o.
Proof. intros H. exact (trimmed_trim o H). Qed.

Lemma split_joinOrigins (l : list string) :
  l <> [] -> Forall listable l ->
  List.map trim (split "," (joinOrigins l)) = l.
Proof.
  unfold split. intros Hne Hall.
  assert (Hgen : forall current,
             List.map trim (splitFrom "," current (joinOrigins l))
             = trim (current ++ hd "" l) :: tl l).
  { induction l as [| o l IH]; [now elim Hne |]. intros current.
    inversion Hall as [| ? ? [Ho Hcomma] Hrest]; subst.
    destruct l as [| o' l].
    - cbn [joinOrigins hd tl]. now rewrite splitFrom_no_separator.
    - change (joinOrigins (o :: o' :: l))
        with (o ++ String "," (" " ++ joinOrigins (o' :: l)))%string.
      rewrite splitFrom_at_separator by exact Hcomma.
      cbn [List.map hd tl]. f_equal.
      change (" " ++ joinOrigins (o' :: l))%string
        with (String " " (joinOrigins (o' :: l))).
      cbn [splitFrom append]. change (Ascii.eqb " " ",") with false. cbn iota.
      rewrite (IH ltac:(discriminate) Hrest (String " " "")).
      cbn [hd tl]. inversion Hrest as [| ? ? [Ho' _] _]; subst.
      now rewrite trim_after_space. }
  rewrite Hgen. cbn [append].
  destruct l as [| o l]; [now elim Hne |]. cbn [hd tl].
  inversion Hall as [| ? ? [Ho _] _]; subst. now rewrite (trimmed_trim o Ho).
Qed.

(** The origins that [corsOptions.origin] lets in.  A request without
    an [Origin] header is always let in.  Without [FRONTEND_URL] (unset
    or empty) the two local development origins are let in and no
    other.  With [FRONTEND_URL] set to a list of origins joined by a
    comma and a space, exactly the origins of the list are let in; any
    other is refused with the error "Not allowed by CORS". *)
Theorem cors_lets_in_the_listed_origins :
  (forall env trace, corsOrigin env trace None = None)
  /\ (forall env trace o,
        o <> "" ->
        (env = None \/ env = Some "") ->
        (corsOrigin env trace (Some o) = None
         <-> o = "http://localhost:5173" \/ o = "http://localhost:3000"))
  /\ (forall l trace o,
        o <> "" -> l <> [] -> Forall listable l -> joinOrigins l <> "" ->
        (corsOrigin (Some (joinOrigins l)) trace (Some o) = None <-> In o l)
        /\ (~ In o l ->
            corsOrigin (Some (joinOrigins l)) trace (Some o)
            = Some (newError "Not allowed by CORS" trace))).
Proof.
  assert (Hincl : forall l o, includes l o = true <-> In o l).
  { intros l o. unfold includes. rewrite existsb_exists. split.
    - intros [x [Hx Heq]]. apply String.eqb_eq in Heq. now subst.
    - intros H. exists o. split; [exact H | apply String.eqb_refl]. }
  split; [reflexivity | split].
  - intros env trace o Hne Henv. unfold corsOrigin. cbn [truthy].
    destruct (String.eqb_spec o ""); [contradiction |]. cbn [negb].
    assert (Hl : allowedOrigins env
                 = ["http://localhost:5173"; "http://localhost:3000"])
      by (destruct Henv as [-> | ->]; reflexivity).
    rewrite Hl.
    destruct (includes _ o) eqn:E.
    + apply Hincl in E. cbn in E. split; [| reflexivity].
      intros _. destruct E as [<- | [<- | []]]; [now left | now right].
    + split; [discriminate |]. intros H.
      assert (Hin : includes ["http://localhost:5173"; "http://localhost:3000"] o = true)
        by (apply Hincl; destruct H as [-> | ->]; cbn; tauto).
      congruence.
  - intros l trace o Hne Hl Hall Hjoin. unfold corsOrigin. cbn [truthy].
    destruct (String.eqb_spec o ""); [contradiction |]. cbn [negb].
    unfold allowedOrigins. cbn [truthy].
    destruct (String.eqb_spec (joinOrigins l) ""); [contradiction |]. cbn [negb].
    rewrite (split_joinOrigins l Hl Hall).
    destruct (includes l o) eqn:E.
    + apply Hincl in E. split; [tauto | intros H; contradiction].
    + split; [| reflexivity]. split; [discriminate |].
      intros H. apply Hincl in H. congruence.
Qed.

Lemma cors_lets_in_the_listed_origins_witness :
  corsOrigin (Some "https://quicklink.example, https://www.quicklink.example")
    "trace" (Some "https://www.quicklink.example")
  = None.
Proof.
  apply (proj1 (proj2 (proj2 cors_lets_in_the_listed_origins)
                  ["https://quicklink.example"; "https://www.quicklink.example"]
                  "trace" "https://www.quicklink.example"
                  ltac:(discriminate) ltac:(discriminate)
                  ltac:(repeat constructor; cbn; intuition discriminate)
                  ltac:(discriminate))).
  right. left. reflexivity.
Defined.

(** *** The error handler *)

(** In production the answer of the error handler shows neither the
    message nor the stack of the error: it depends on the error only
    through its status and through whether it is the refusal of the
    CORS check.  Outside production the message and the stack are in
    the answer of every error that is neither that refusal nor a rate
    limit.  The status of the answer is 403 for the refusal, 429 for a
    rate limit, and otherwise the status of the error, 500 standing in
    for a missing one. *)
Theorem errorHandler_shows_no_details_in_production :
  (forall now err1 err2,
      status err1 = status err2 ->
      (message err1 = "Not allowed by CORS" <-> message err2 = "Not allowed by CORS") ->
      errorHandler true now err1 = errorHandler true now err2)
  /\ (forall now err,
        optMember (Server.body (errorHandler true now err)) "details" = JUndefined
        /\ optMember (Server.body (errorHandler true now err)) "stack" = JUndefined)
  /\ (forall now err,
        message err <> "Not allowed by CORS" -> status err <> Some 429%Z ->
        optMember (Server.body (errorHandler false now err)) "details"
        = JString (message err)
        /\ optMember (Server.body (errorHandler false now err)) "stack" = stack err
        /\ Server.statusCode (errorHandler false now err) = statusOr500 err)
  /\ (forall isProduction now err,
        Server.statusCode (errorHandler isProduction now err)
        = if message err =? "Not allowed by CORS" then 403%Z
          else statusOr500 err).
Proof.
  split; [| split; [| split]].
  - intros now err1 err2 Hs Hm. unfold errorHandler, statusOr500.
    rewrite Hs.
    destruct (String.eqb_spec (message err1) "Not allowed by CORS") as [E1 | E1],
             (String.eqb_spec (message err2) "Not allowed by CORS") as [E2 | E2];
      try reflexivity; tauto.
  - intros now err. unfold errorHandler.
    destruct (message err =? "Not allowed by CORS"); [now split |].
    destruct (status err) as [n |]; [| now split].
    destruct (n =? 429)%Z; now split.
  - intros now err Hm Hs. unfold errorHandler.
    destruct (String.eqb_spec (message err) "Not allowed by CORS") as [E | _];
      [contradiction |].
    destruct (status err) as [n |] eqn:Es.
    + destruct (Z.eqb_spec n 429) as [-> | _]; [now elim Hs |]. now repeat split.
    + now repeat split.
  - intros isProduction now err. unfold errorHandler, statusOr500.
    destruct (message err =? "Not allowed by CORS"); [reflexivity |].
    destruct (status err) as [n |]; [| reflexivity].
    destruct (Z.eqb_spec n 429) as [-> | _]; reflexivity.
Qed.

Lemma errorHandler_shows_no_details_in_production_witness :
  errorHandler true "2024-01-01T00:00:00.000Z"
    {| message := "connect ECONNREFUSED"; status := None; stack := JString "at a" |}
  = errorHandler true "2024-01-01T00:00:00.000Z"
      {| message := "secret"; status := None; stack := JString "at b" |}.
Proof.
  apply (proj1 errorHandler_shows_no_details_in_production); [reflexivity |].
  split; discriminate.
Defined.


End Application.

(** ** A request that settles *)

Section Settling.
Import Js Client.

Lemma displayedError_nonempty (message : string) : displayedError message <> "".
Proof.
  unfold displayedError.
  destruct (includes "quota exceeded" message); [discriminate |].
  destruct (includes "already exists" message); [discriminate |].
  destruct (includes "Invalid URL" message); [discriminate |].
  cbn [truthy]. destruct (String.eqb_spec message ""); cbn [negb];
    [discriminate | assumption].
Qed.

(** Every settled request ends the loading.  When it creates no entry
    (the request was rejected, the answer was not ok, or it lacked
    [success]) the page shows a non-empty message and keeps its history
    and its result; when it creates one, the entry goes on top of the
    history, the short URL of the reply becomes the result, and the
    message is left as it was. *)
Theorem settled_request_ends_loading :
  forall st fullUrl outcome now,
    let st' := shortenSettled st fullUrl outcome now in
    isLoading st' = false
    /\ (creates outcome = false ->
        error st' <> "" /\ urlHistory st' = urlHistory st
        /\ shortenedUrl st' = shortenedUrl st)
    /\ (forall r, outcome = Responded r -> creates outcome = true ->
        error st' = error st
        /\ urlHistory st' = record (newEntry now fullUrl r) (urlHistory st)
        /\ shortenedUrl st' = replyShortUrl r).
Proof.
  intros st fullUrl outcome now st'. subst st'.
  unfold shortenSettled, creates.
  destruct outcome as [m | r].
  - split; [reflexivity | split; [| discriminate]].
    intros _. split; [apply displayedError_nonempty | now split].
  - destruct (ok r), (success r); cbn [negb andb];
      (split; [reflexivity | split]);
      try discriminate;
      try (intros _; split; [apply displayedError_nonempty | now split]).
    intros r' H _. injection H as <-. now repeat split.
Qed.

Lemma settled_request_ends_loading_witness :
  error (shortenSettled (initial []) "https://example.com"
           (Rejected "Failed to fetch") 1700000000000)
  <> "".
Proof.
  apply (settled_request_ends_loading (initial []) "https://example.com"
           (Rejected "Failed to fetch") 1700000000000).
  reflexivity.
Defined.

End Settling.

Section Success.
Import Js Server.

Variable key : value.
Variable rebrandly : Log -> HttpCall -> Error + AxiosResponse.

Abbreviation shorten := (Server.shorten key rebrandly).


End Success.

Section SuccessRuns.
Import Js Server.


End SuccessRuns.

(** ** From the page to the provider *)

Section PageToProvider.
Import Js Server.

Variable key : value.
Variable rebrandly : Log -> HttpCall -> Error + AxiosResponse.

Abbreviation shorten := (Server.shorten key rebrandly).

(** Whatever the proxy forwards for a request that the page sent has a
    destination under the scheme [http] or [https]: the page does not
    let the proxy see a URL of another scheme. *)
Theorem page_reaches_provider_with_http_only :
  forall st ev fullUrl slug log call,
    In (Client.FetchShorten fullUrl slug) (sent st ev) ->
    In call (skipn (length log) (snd (shorten (postedBody fullUrl slug) log))) ->
    call = linksCall key fullUrl slug
    /\ exists u, URL.parse fullUrl = Some u
                 /\ (URL.scheme u = "http" \/ URL.scheme u = "https").
Proof.
  intros st ev fullUrl slug log call Hsent Hcall.
  destruct (sent_http_url st ev fullUrl slug Hsent) as [_ [_ Hscheme]].
  split; [| exact Hscheme].
  rewrite (page_request_run key rebrandly st ev fullUrl slug log Hsent) in Hcall.
  destruct (isValidSlug slug); cbn [runVerdict snd] in Hcall.
  - rewrite skipn_app, skipn_all, Nat.sub_diag in Hcall. cbn [skipn app] in Hcall.
    destruct Hcall as [<- | []]. reflexivity.
  - rewrite skipn_all in Hcall. destruct Hcall.
Qed.

End PageToProvider.

Section PageToProviderRuns.
Import Js Server.

Lemma page_reaches_provider_with_http_only_witness :
  linksCall apiKey "https://example.com" None
  = linksCall apiKey "https://example.com" None
  /\ exists u, URL.parse "https://example.com" = Some u
               /\ (URL.scheme u = "http" \/ URL.scheme u = "https").
Proof.
  apply (page_reaches_provider_with_http_only apiKey (answering created)
           (Client.setUrl (Client.initial []) "example.com") Client.ClickShorten
           "https://example.com" None []).
  - left. reflexivity.
  - left. reflexivity.
Defined.

End PageToProviderRuns.

(** ** Recording and deleting *)

Section RecordDelete.
Import Js Client.

(** Deleting the entry just recorded gives back the nine most recent
    entries of the history before: the history itself when it held at
    most nine entries, and the history without its oldest entry when it
    was full.  (The id of the entry is supposed new.) *)
Theorem delete_after_record :
  (forall e h,
      ~ In (id e) (ids h) ->
      deleteFromHistory (id e) (record e h) = firstn 9 h)
  /\ (forall e h,
        ~ In (id e) (ids h) -> length h <= 9 ->
        deleteFromHistory (id e) (record e h) = h)
  /\ (forall e h,
        ~ In (id e) (ids h) -> length h = 10 ->
        length (deleteFromHistory (id e) (record e h)) = 9).
Proof.
  assert (H1 : forall e h,
             ~ In (id e) (ids h) ->
             deleteFromHistory (id e) (record e h) = firstn 9 h).
  { intros e h Hnew. unfold record, slice0.
    change (deleteFromHistory (id e) (e :: firstn 9 h))
      with (if negb (id e =? id e)%Z
            then e :: deleteFromHistory (id e) (firstn 9 h)
            else deleteFromHistory (id e) (firstn 9 h)).
    rewrite Z.eqb_refl. cbn [negb].
    apply deleteFromHistory_absent. intros Hin. apply Hnew.
    unfold ids in *. rewrite <- firstn_map in Hin.
    exact (incl_firstn 9 _ _ Hin). }
  split; [exact H1 | split].
  - intros e h Hnew Hlen. rewrite (H1 e h Hnew). now apply firstn_all2.
  - intros e h Hnew Hlen. rewrite (H1 e h Hnew).
    rewrite length_firstn. lia.
Qed.

Lemma delete_after_record_witness :
  deleteFromHistory 9
    (record (newEntry 9 "https://c.example/" exampleReply)
       [newEntry 5 "https://a.example/" exampleReply])
  = [newEntry 5 "https://a.example/" exampleReply].
Proof.
  apply (proj1 (proj2 delete_after_record)
           (newEntry 9 "https://c.example/" exampleReply)
           [newEntry 5 "https://a.example/" exampleReply]).
  - cbn. intuition discriminate.
  - cbn. lia.
Defined.

End RecordDelete.
